(** * openimp / tools/re_agent/binja_mcp_client.py

    A shallow embedding of [BinaryNinjaMCPClient]: the endpoint resolver,
    the SSE event buffer, the two correlator waits and the call
    orchestrator ([list_binaries], [decompile_function], [list_functions]),
    with the properties the specification states about them.

    Conventions of the embedding:
    - a Python [str] is a [string]; each [ascii] stands for one code point
      in the range 0..255 (Latin-1), so [len] is [String.length];
    - [time.time()] readings are integers (microseconds since the epoch);
      only their order and the addition of a timeout are used;
    - everything the process does not control (HTTP exchanges, [uuid4],
      the clock, the arrival of SSE events) is read from an explicit
      environment [Env], and every HTTP request issued is logged in the
      client state. *)

From Stdlib Require Import ZArith Ascii String List Bool Lia.
From Stdlib Require Import Decimal DecimalString DecimalN.
From stdpp Require Import base option list gmap strings fin_maps.

#[local] Set Warnings "-register-all".

Local Open Scope string_scope.
Local Open Scope list_scope.
Local Open Scope Z_scope.

(** ** Python string primitives used by the client *)

Module PyStr.

Definition code (c : ascii) : N := N_of_ascii c.

(** [str.isspace] on the code points 0..255. *)
Definition is_space (c : ascii) : bool :=
  let n := code c in
  ((9 <=? n) && (n <=? 13) || (28 <=? n) && (n <=? 32)
   || (n =? 133) || (n =? 160))%N.

(** ASCII decimal digit: what [int] accepts. *)
Definition is_dec_digit (c : ascii) : bool :=
  let n := code c in ((48 <=? n) && (n <=? 57))%N.

(** [str.isdigit] on one code point: the ASCII digits and the
    superscripts U+00B2, U+00B3, U+00B9. *)
Definition is_digit_char (c : ascii) : bool :=
  let n := code c in
  (is_dec_digit c || (n =? 178) || (n =? 179) || (n =? 185))%N.

Fixpoint forallb_str (p : ascii -> bool) (s : string) : bool :=
  match s with
  | EmptyString => true
  | String c r => p c && forallb_str p r
  end.

Definition is_empty (s : string) : bool :=
  match s with EmptyString => true | _ => false end.

(** [s.isdigit()]: non-empty and every character is a digit. *)
Definition isdigit (s : string) : bool :=
  negb (is_empty s) && forallb_str is_digit_char s.

Fixpoint lstrip_by (p : ascii -> bool) (s : string) : string :=
  match s with
  | EmptyString => EmptyString
  | String c r => if p c then lstrip_by p r else s
  end.

Fixpoint rstrip_by (p : ascii -> bool) (s : string) : string :=
  match s with
  | EmptyString => EmptyString
  | String c r =>
      let r' := rstrip_by p r in
      if p c && is_empty r' then EmptyString else String c r'
  end.

(** [s.strip()] *)
Definition strip (s : string) : string := rstrip_by is_space (lstrip_by is_space s).

(** [s.rstrip("/")] and [s.lstrip("/")] *)
Definition rstrip_slash (s : string) : string := rstrip_by (Ascii.eqb "/") s.
Definition lstrip_slash (s : string) : string := lstrip_by (Ascii.eqb "/") s.

(** [s.startswith(p)] *)
Definition startswith (s p : string) : bool := String.prefix p s.

(** [s.split(sep)[-1]] for a one-character separator: the part after
    the last occurrence of [sep], the whole string when there is none. *)
Fixpoint last_segment (sep : ascii) (s : string) : string :=
  match s with
  | EmptyString => EmptyString
  | String c r =>
      if Ascii.eqb c sep then last_segment sep r
      else if forallb_str (fun d => negb (Ascii.eqb d sep)) r then s
           else last_segment sep r
  end.

(** [needle in hay] *)
Fixpoint contains (needle hay : string) : bool :=
  String.prefix needle hay
  || match hay with
     | EmptyString => false
     | String _ r => contains needle r
     end.

(** [str.lower] on one code point of 0..255: A-Z and the Latin-1
    capitals U+00C0..U+00DE except the multiplication sign U+00D7. *)
Definition lower_char (c : ascii) : ascii :=
  let n := code c in
  if ((65 <=? n) && (n <=? 90)
      || (192 <=? n) && (n <=? 222) && negb (n =? 215))%N
  then ascii_of_N (n + 32) else c.

Fixpoint lower (s : string) : string :=
  match s with
  | EmptyString => EmptyString
  | String c r => String (lower_char c) (lower r)
  end.

(** *** [int(s)] and [str(n)] *)

(** Digits of a literal with the underscores of [PEP 515] removed;
    [None] when an underscore is leading, trailing or doubled, or a
    character is neither a digit nor an underscore. [prev] tells whether
    the previous character was a digit. *)
Fixpoint int_digits (prev : bool) (s : string) : option string :=
  match s with
  | EmptyString => if prev then Some EmptyString else None
  | String c r =>
      if is_dec_digit c then String c <$> int_digits true r
      else if Ascii.eqb c "_" && prev then int_digits false r
      else None
  end.

Definition strip_sign (s : string) : bool * string :=
  match s with
  | String "-" r => (true, r)
  | String "+" r => (false, r)
  | _ => (false, s)
  end.

(** [sys.int_max_str_digits]: [int] refuses longer literals, and [str]
    longer results, with a [ValueError]. *)
Definition int_max_str_digits : nat := 4300.

(** [int(s)] in base 10; [None] stands for the [ValueError]. *)
Definition py_int (s : string) : option Z :=
  let '(neg, body) := strip_sign (strip s) in
  ds ← int_digits false body;
  if decide (String.length ds ≤ int_max_str_digits)%nat then
    d ← NilEmpty.uint_of_string ds;
    let n := Z.of_N (N.of_uint d) in
    Some (if neg then - n else n)
  else None.

(** [str(n)] for an integer: canonical decimal, [-] for negatives. *)
Definition str_of_int (n : Z) : string :=
  let body := NilEmpty.string_of_uint (N.to_uint (Z.to_N (Z.abs n))) in
  if n <? 0 then String "-" body else body.

End PyStr.

(** ** The endpoint resolver's direct base URL *)

(** [_direct_base_from_binary_id]: a full URL is kept (trailing slashes
    removed); [port_<n>] and all-digit identifiers give
    [http://localhost:<n>] when [int] succeeds and [n] is non-zero. *)
Definition _direct_base_from_binary_id (binary_id : string) : option string :=
  let bid := PyStr.strip binary_id in
  if PyStr.startswith bid "http://" || PyStr.startswith bid "https://" then
    Some (PyStr.rstrip_slash bid)
  else
    let port : option Z :=
      if PyStr.startswith bid "port_" then PyStr.py_int (PyStr.last_segment "_" bid)
      else if PyStr.isdigit bid then PyStr.py_int bid
      else None in
    match port with
    | Some p => if p =? 0 then None else Some ("http://localhost:" +:+ PyStr.str_of_int p)
    | None => None
    end.

(** ** Decoded JSON values *)

(** A Python [float]: not-a-number, an infinity, or the finite value
    [m * 2^e]. The client only tests floats for truth and converts them
    with [int]. *)
Inductive pyfloat : Type :=
| FNan
| FInf (neg : bool)
| FFin (m e : Z).

(** What [json.loads] returns. A [dict] is kept as the list of its
    items, read by the first binding of a key; [None] is [JNull]. *)
Inductive json : Type :=
| JNull
| JBool (b : bool)
| JInt (n : Z)
| JFloat (f : pyfloat)
| JStr (s : string)
| JArr (items : list json)
| JObj (fields : list (string * json)).

Module Py.

(** Truth value of an object in a condition, [or] and [and]. *)
Definition truthy (v : json) : bool :=
  match v with
  | JNull => false
  | JBool b => b
  | JInt n => negb (n =? 0)
  | JFloat FNan => true
  | JFloat (FInf _) => true
  | JFloat (FFin m _) => negb (m =? 0)
  | JStr s => negb (PyStr.is_empty s)
  | JArr l => match l with [] => false | _ => true end
  | JObj kv => match kv with [] => false | _ => true end
  end.

(** [a or b] *)
Definition or (a b : json) : json := if truthy a then a else b.

(** Truth value of an [Optional[str]] argument. *)
Definition truthy_opt (s : option string) : bool :=
  match s with Some s => negb (PyStr.is_empty s) | None => false end.

Fixpoint assoc (k : string) (kv : list (string * json)) : option json :=
  match kv with
  | [] => None
  | (k', v) :: r => if String.eqb k' k then Some v else assoc k r
  end.

(** [d.get(k)] and [k in d] *)
Definition get (kv : list (string * json)) (k : string) : json :=
  default JNull (assoc k kv).
Definition has (kv : list (string * json)) (k : string) : bool :=
  bool_decide (is_Some (assoc k kv)).

Definition is_str (v : json) : bool := match v with JStr _ => true | _ => false end.
Definition is_list (v : json) : bool := match v with JArr _ => true | _ => false end.
Definition is_dict (v : json) : bool := match v with JObj _ => true | _ => false end.

(** [v == s] for a string [s] *)
Definition eq_str (v : json) (s : string) : bool :=
  match v with JStr s' => String.eqb s' s | _ => false end.

(** [int(v)]; [None] stands for the exception. *)
Definition int (v : json) : option Z :=
  match v with
  | JInt n => Some n
  | JBool b => Some (if b then 1 else 0)
  | JFloat (FFin m e) =>
      Some (if 0 <=? e then m * 2 ^ e else Z.quot m (2 ^ (- e)))
  | JStr s => PyStr.py_int s
  | _ => None
  end.

End Py.

(** ** The SSE event buffer *)

Definition time : Type := Z.

(** Clock units in one second. *)
Definition second : Z := 1000000.

(** One buffered event: arrival time and decoded payload. *)
Definition event : Type := (time * json)%type.

(** [deque(maxlen=500)] *)
Definition SSE_MAXLEN : nat := 500.

(** [deque.append] of a bounded deque: append on the right, then drop
    the leftmost element if the bound is exceeded. *)
Definition deque_append {A} (maxlen : nat) (d : list A) (x : A) : list A :=
  let d' := d ++ [x] in
  if decide (maxlen < length d')%nat then drop 1 d' else d'.

(** The buffer after [_enqueue_event(obj)] when the clock reads [now]. *)
Definition enqueue_buffer (buf : list event) (now : time) (obj : json) : list event :=
  deque_append SSE_MAXLEN buf (now, obj).

(** ** Matching one event *)

(** The guard on a candidate value:
    [function_name and isinstance(val, str) and function_name not in val]. *)
Definition hint_rejects (function_name : option string) (val : json) : bool :=
  match function_name, val with
  | Some f, JStr s => negb (PyStr.is_empty f) && negb (PyStr.contains f s)
  | _, _ => false
  end.

(** [for k in desired_keys: if k in d and isinstance(d[k], (str, list)):]
    return the first value the hint does not reject. *)
Fixpoint extract_keys (function_name : option string) (desired_keys : list string)
         (d : list (string * json)) : option json :=
  match desired_keys with
  | [] => None
  | k :: ks =>
      let val := Py.get d k in
      if Py.has d k && (Py.is_str val || Py.is_list val)
         && negb (hint_rejects function_name val)
      then Some val
      else extract_keys function_name ks d
  end.

(** The two passes over a payload dict: its own keys, then those of a
    non-empty nested ["data"] dict. *)
Definition extract_payload (function_name : option string) (desired_keys : list string)
           (p : list (string * json)) : option json :=
  match extract_keys function_name desired_keys p with
  | Some v => Some v
  | None =>
      match Py.get p "data" with
      | JObj ((_ :: _) as d) => extract_keys function_name desired_keys d
      | _ => None
      end
  end.

(** Body of the [for] loop of [_sse_wait_for] for one event: [Some v]
    when the loop returns [v] at this event. *)
Definition wait_for_event (expect_method : option string) (desired_keys : list string)
           (function_name : option string) (obj : json) : option json :=
  let payload :=
    match obj with
    | JObj kv =>
        if Py.has kv "result" && Py.eq_str (Py.get kv "jsonrpc") "2.0"
        then Py.get kv "result" else obj
    | _ => obj
    end in
  match payload with
  | JObj p =>
      let method :=
        Py.or (Py.or (Py.or (Py.get p "method") (Py.get p "tool")) (Py.get p "name"))
              (Py.get p "function") in
      if Py.truthy_opt expect_method && Py.truthy method
         && negb (Py.eq_str method (default "" expect_method))
      then None
      else extract_payload function_name desired_keys p
  | JArr l => if existsb Py.is_str l then Some payload else None
  | _ => None
  end.

(** Body of the [for] loop of [_sse_wait_for_id] for one event: the
    JSON-RPC envelope branch, then the branch for any dict with the id. *)
Definition wait_for_id_event (req_id : string) (desired_keys : list string)
           (function_name : option string) (obj : json) : option json :=
  match obj with
  | JObj kv =>
      let envelope :=
        if Py.eq_str (Py.get kv "jsonrpc") "2.0" && Py.eq_str (Py.get kv "id") req_id then
          match Py.get kv "result" with
          | JObj p => extract_payload function_name desired_keys p
          | (JStr _ | JArr _) as payload => Some payload
          | _ => None
          end
        else None in
      match envelope with
      | Some v => Some v
      | None =>
          if Py.eq_str (Py.get kv "id") req_id then
            match Py.or (Py.get kv "result") obj with
            | JObj p => extract_keys None desired_keys p
            | (JStr _ | JArr _) as payload => Some payload
            | _ => None
            end
          else None
      end
  | _ => None
  end.

(** [for ts, obj in list(self._sse_events)]: events not newer than
    [last_checked] are skipped, the first matching event decides. *)
Fixpoint scan (m : json -> option json) (last_checked : time) (evs : list event)
  : option json :=
  match evs with
  | [] => None
  | (ts, obj) :: r =>
      if ts <=? last_checked then scan m last_checked r
      else match m obj with
           | Some v => Some v
           | None => scan m last_checked r
           end
  end.

(** ** Client state and environment *)

Module BinaryInfo.
(** [@dataclass BinaryInfo] *)
Record t : Type := mk {
  binary_id : string;
  name : string;
  architecture : string;
  base_address : Z
}.
End BinaryInfo.

(** A [threading.Thread] handle, as far as the client looks at it. *)
Inductive Thread : Type := BNMCPSSE (alive : bool).

Definition is_alive (t : Thread) : bool := match t with BNMCPSSE a => a end.

(** One HTTP exchange of [urllib.request.urlopen]. A URL is kept as the
    text before [?] and the parameters that [urlencode] renders after it. *)
Inductive request : Type :=
| GET (url : string) (query : list (string * string)) (timeout : Z)
| POST (url : string) (body : json) (timeout : Z).

(** Its outcome: an exception, or a status with the body read from it;
    [parsed] is [json.loads] of the body, [None] when that raises. *)
Inductive response : Type :=
| Failed
| Reply (status : Z) (raw : string) (parsed : option json).

(** One pass of a wait loop as the environment schedules it: the clock
    at the [while] test, the events the background reader has appended
    since the client last held the lock (each with the clock reading of
    its [_enqueue_event]), and the clock read as [now] under the lock. *)
Record round : Type := mkRound {
  r_enter : time;
  r_arrivals : list event;
  r_now : time
}.

(** What one wait observes: the clock when the deadline is computed and
    the passes that follow. After the last listed pass the [while] test
    finds the deadline passed. *)
Record schedule : Type := mkSchedule {
  ws_start : time;
  ws_rounds : list round
}.

Record Env : Type := mkEnv {
  (** answer to a request, given how many requests were issued before *)
  env_http : nat -> request -> response;
  (** the [n]-th value of [str(uuid.uuid4())] *)
  env_uuid : nat -> string;
  (** what the [n]-th wait observes *)
  env_wait : nat -> schedule
}.

(** The fields of [BinaryNinjaMCPClient], followed by the bookkeeping of
    the embedding: the requests the calling thread has issued so far
    (oldest first) and the numbers of ids drawn and waits begun. The
    reader's own streaming GET of [/sse] is not in the log: it exists
    exactly when the reader thread has been started. *)
Record Client : Type := mkClient {
  mcp_command : string;
  base_url : option string;
  available_binaries : gmap string BinaryInfo.t;
  _sse_thread : option Thread;
  _sse_events : list event;
  _sse_running : bool;
  requests : list request;
  uuids_drawn : nat;
  waits_begun : nat
}.

Definition with_binaries (m : gmap string BinaryInfo.t) (c : Client) : Client :=
  mkClient (mcp_command c) (base_url c) m (_sse_thread c) (_sse_events c)
           (_sse_running c) (requests c) (uuids_drawn c) (waits_begun c).

Definition with_reader (t : option Thread) (running : bool) (c : Client) : Client :=
  mkClient (mcp_command c) (base_url c) (available_binaries c) t (_sse_events c)
           running (requests c) (uuids_drawn c) (waits_begun c).

Definition with_events (evs : list event) (c : Client) : Client :=
  mkClient (mcp_command c) (base_url c) (available_binaries c) (_sse_thread c) evs
           (_sse_running c) (requests c) (uuids_drawn c) (waits_begun c).

Definition with_requests (rs : list request) (c : Client) : Client :=
  mkClient (mcp_command c) (base_url c) (available_binaries c) (_sse_thread c)
           (_sse_events c) (_sse_running c) rs (uuids_drawn c) (waits_begun c).

Definition with_uuids (n : nat) (c : Client) : Client :=
  mkClient (mcp_command c) (base_url c) (available_binaries c) (_sse_thread c)
           (_sse_events c) (_sse_running c) (requests c) n (waits_begun c).

Definition with_waits (n : nat) (c : Client) : Client :=
  mkClient (mcp_command c) (base_url c) (available_binaries c) (_sse_thread c)
           (_sse_events c) (_sse_running c) (requests c) (uuids_drawn c) n.

(** [BinaryNinjaMCPClient.__init__]: the base URL is the first non-empty
    of the two environment variables, else the argument. *)
Definition __init__ (environ : string -> option string) (mcp_command : string)
           (base_url : option string) : Client :=
  let pick (a b : option string) := if Py.truthy_opt a then a else b in
  mkClient mcp_command
           (pick (pick (environ "BN_MCP_BASE_URL") (environ "SMART_DIFF_BASE_URL")) base_url)
           ∅ None [] false [] 0 0.

(** ** A state monad over the client *)

Definition M (A : Type) : Type := Client -> Client * A.

Definition ret {A} (a : A) : M A := fun st => (st, a).

Definition bind {A B} (m : M A) (k : A -> M B) : M B :=
  fun st => let '(st', a) := m st in k a st'.

Declare Scope client_scope.
Delimit Scope client_scope with client.
Notation "x <~ m ;; k" := (bind m (fun x => k))
  (at level 100, m at next level, right associativity) : client_scope.
Notation "m ;;; k" := (bind m (fun _ => k))
  (at level 100, right associativity) : client_scope.
Local Open Scope client_scope.

Definition get_base_url : M (option string) := fun st => (st, base_url st).

(** ** The Event Bus *)

(** [_ensure_sse_background] *)
Definition _ensure_sse_background : M unit := fun st =>
  if negb (Py.truthy_opt (base_url st)) then (st, tt)
  else if from_option is_alive false (_sse_thread st) then (st, tt)
  else (with_reader (Some (BNMCPSSE true)) true st, tt).

(** [_enqueue_event], called by the reader when the clock reads [now]. *)
Definition _enqueue_event (now : time) (obj : json) (st : Client) : Client :=
  with_events (enqueue_buffer (_sse_events st) now obj) st.

(** The reader runs [_sse_background]: it appends events only while its
    thread is alive, [_sse_running] is set and a base URL is configured. *)
Definition reader_active (st : Client) : bool :=
  from_option is_alive false (_sse_thread st) && _sse_running st
  && Py.truthy_opt (base_url st).

Definition deliver (arrivals : list event) (st : Client) : Client :=
  if reader_active st
  then foldl (fun s ev => _enqueue_event ev.1 ev.2 s) st arrivals
  else st.

(** The [while time.time() < end] loop shared by the two waits, for the
    per-event body [m]. *)
Fixpoint wait_rounds (m : json -> option json) (end_ last_checked : time)
         (rs : list round) (st : Client) : Client * option json :=
  match rs with
  | [] => (st, None)
  | r :: rs' =>
      if r_enter r <? end_ then
        let st1 := deliver (r_arrivals r) st in
        match scan m last_checked (_sse_events st1) with
        | Some v => (st1, Some v)
        | None => wait_rounds m end_ (r_now r) rs' st1
        end
      else (st, None)
  end.

(** Outcome of a statement sequence that may raise an exception. *)
Inductive attempt (A : Type) : Type :=
| Raised
| Done (a : A).
Arguments Raised {A}.
Arguments Done {A} a.

Section Client.

Context (env : Env).

(** Python's [repr] of a float, a list or a dict, which [str] returns
    for them; only its being a function of the value is used. *)
Context (py_repr : json -> string).

Definition begin_wait : M schedule := fun st =>
  (with_waits (S (waits_begun st)) st, env_wait env (waits_begun st)).

(** [_sse_wait_for]; [timeout] in seconds. *)
Definition _sse_wait_for (expect_method : option string) (expect_params : json)
           (desired_keys : list string) (function_name : option string)
           (timeout : Z) : M (option json) :=
  _ensure_sse_background ;;;
  ws <~ begin_wait ;;
  wait_rounds (wait_for_event expect_method desired_keys function_name)
              (ws_start ws + timeout * second) 0 (ws_rounds ws).

(** [_sse_wait_for_id] *)
Definition _sse_wait_for_id (req_id : string) (desired_keys : list string)
           (function_name : option string) (timeout : Z) : M (option json) :=
  _ensure_sse_background ;;;
  ws <~ begin_wait ;;
  wait_rounds (wait_for_id_event req_id desired_keys function_name)
              (ws_start ws + timeout * second) 0 (ws_rounds ws).

(** *** HTTP helpers *)

Definition http (req : request) : M response := fun st =>
  (with_requests (requests st ++ [req]) st, env_http env (length (requests st)) req).

(** [self.base_url.rstrip("/") + "/" + path.lstrip("/")] *)
Definition bridge_url (base path : string) : string :=
  PyStr.rstrip_slash base +:+ "/" +:+ PyStr.lstrip_slash path.

(** [_http_get_json] *)
Definition _http_get_json (path : string) (params : list (string * string)) : M json :=
  base <~ get_base_url ;;
  if negb (Py.truthy_opt base) then ret JNull
  else
    resp <~ http (GET (bridge_url (default "" base) path) params 8) ;;
    ret match resp with
        | Reply _ _ (Some obj) => obj
        | _ => JNull
        end.

(** [_http_get_text] *)
Definition _http_get_text (path : string) (params : list (string * string))
  : M (option string) :=
  base <~ get_base_url ;;
  if negb (Py.truthy_opt base) then ret None
  else
    resp <~ http (GET (bridge_url (default "" base) path) params 15) ;;
    ret match resp with
        | Reply _ raw _ => Some raw
        | Failed => None
        end.

(** [_http_get_json_full] *)
Definition _http_get_json_full (url : string) (query : list (string * string)) : M json :=
  resp <~ http (GET url query 10) ;;
  ret match resp with
      | Reply _ _ (Some obj) => obj
      | _ => JNull
      end.

(** [_http_post_json_full] *)
Definition _http_post_json_full (url : string) (body : json) : M json :=
  resp <~ http (POST url body 15) ;;
  ret match resp with
      | Reply _ raw parsed =>
          if PyStr.is_empty (PyStr.strip raw) then JNull else default JNull parsed
      | Failed => JNull
      end.

(** [_bridge_call_jsonrpc] *)
Definition _bridge_call_jsonrpc (method : string) (params : json) (req_id : string)
  : M json :=
  base <~ get_base_url ;;
  if negb (Py.truthy_opt base) then ret JNull
  else
    let url := PyStr.rstrip_slash (default "" base) +:+ "/message" in
    let body := JObj [("jsonrpc", JStr "2.0"); ("id", JStr req_id);
                      ("method", JStr method); ("params", Py.or params (JObj []))] in
    resp <~ http (POST url body 20) ;;
    ret match resp with
        | Failed => JNull
        | Reply status raw parsed =>
            if 400 <=? status then JNull
            else match parsed with
                 | Some (JObj kv as obj) =>
                     if Py.eq_str (Py.get kv "jsonrpc") "2.0"
                        && Py.eq_str (Py.get kv "id") req_id
                     then Py.get kv "result" else obj
                 | Some obj => obj
                 | None => if PyStr.is_empty (PyStr.strip raw) then JNull else JStr raw
                 end
        end.

(** The five message shapes [_bridge_call] tries in turn. *)
Definition bridge_payloads (method : string) (params : json) : list json :=
  let p := Py.or params (JObj []) in
  [ JObj [("method", JStr method); ("params", p)];
    JObj [("jsonrpc", JStr "2.0"); ("id", JInt 1); ("method", JStr method); ("params", p)];
    JObj [("tool", JStr method); ("params", p)];
    JObj [("name", JStr method); ("arguments", p)];
    JObj [("function", JStr method); ("args", p)] ].

Fixpoint bridge_try (url : string) (payloads : list json) : M json :=
  match payloads with
  | [] => ret JNull
  | body :: rest =>
      resp <~ http (POST url body 20) ;;
      match resp with
      | Failed => bridge_try url rest
      | Reply status raw parsed =>
          if 400 <=? status then bridge_try url rest
          else match parsed with
               | None => ret (if PyStr.is_empty (PyStr.strip raw) then JNull else JStr raw)
               | Some (JObj kv as obj) =>
                   if Py.eq_str (Py.get kv "jsonrpc") "2.0" then
                     if Py.has kv "result" then ret (Py.get kv "result")
                     else if Py.has kv "error" then bridge_try url rest
                     else ret obj
                   else ret obj
               | Some obj => ret obj
               end
      end
  end.

(** [_bridge_call] *)
Definition _bridge_call (method : string) (params : json) : M json :=
  base <~ get_base_url ;;
  if negb (Py.truthy_opt base) then ret JNull
  else bridge_try (PyStr.rstrip_slash (default "" base) +:+ "/message")
                  (bridge_payloads method params).

Definition uuid4 : M string := fun st =>
  (with_uuids (S (uuids_drawn st)) st, env_uuid env (uuids_drawn st)).

(** *** [list_binaries] *)

(** [str(v)] *)
Definition py_str (v : json) : string :=
  match v with
  | JStr s => s
  | JInt n => PyStr.str_of_int n
  | JBool true => "True"
  | JBool false => "False"
  | JNull => "None"
  | _ => py_repr v
  end.

(** The body that builds one [BinaryInfo] from a roster entry [it];
    [Done None] when the entry has no usable id. Bridge and SSE rosters
    also accept the key [server_id]. *)
Definition server_of_entry (with_server_id : bool) (it : list (string * json))
  : attempt (option BinaryInfo.t) :=
  let bid :=
    if with_server_id
    then Py.or (Py.or (Py.or (Py.get it "id") (Py.get it "binary_id"))
                      (Py.get it "server_id")) (Py.get it "name")
    else Py.or (Py.or (Py.get it "id") (Py.get it "binary_id")) (Py.get it "name") in
  let name := Py.or (Py.or (Py.get it "name") (Py.get it "title")) bid in
  let arch := Py.or (Py.or (Py.get it "architecture") (Py.get it "arch")) (JStr "mips32") in
  let base := Py.or (Py.get it "base_address") (JInt 0) in
  if Py.truthy bid then
    match Py.int base with
    | Some n => Done (Some (BinaryInfo.mk (py_str bid) (py_str name) (py_str arch) n))
    | None => Raised
    end
  else Done None.

(** [for it in items: ... servers.append(...)]: the list built so far is
    kept when an entry raises. [skip_non_dict] is the [isinstance(it, dict)]
    test of the SSE variant; without it [it.get] raises on a non-dict. *)
Fixpoint parse_servers (with_server_id skip_non_dict : bool) (items : list json)
         (servers : list BinaryInfo.t) : list BinaryInfo.t * bool :=
  match items with
  | [] => (servers, true)
  | JObj it :: rest =>
      match server_of_entry with_server_id it with
      | Raised => (servers, false)
      | Done (Some b) => parse_servers with_server_id skip_non_dict rest (servers ++ [b])
      | Done None => parse_servers with_server_id skip_non_dict rest servers
      end
  | _ :: rest =>
      if skip_non_dict then parse_servers with_server_id skip_non_dict rest servers
      else (servers, false)
  end.

Definition nonempty {A} (l : list A) : bool := match l with [] => false | _ => true end.

(** The loop over the JSON-RPC list methods. *)
Fixpoint roster_from_bridge (methods : list string) (servers : list BinaryInfo.t)
  : M (list BinaryInfo.t) :=
  match methods with
  | [] => ret servers
  | method :: rest =>
      req_id <~ uuid4 ;;
      sync <~ _bridge_call_jsonrpc method (JObj []) req_id ;;
      candidate <~ (if Py.truthy sync then ret sync else _bridge_call method (JObj [])) ;;
      match candidate with
      | JArr ((_ :: _) as items) =>
          let '(servers', ok) := parse_servers true false items servers in
          if ok && nonempty servers' then ret servers'
          else roster_from_bridge rest servers'
      | _ => roster_from_bridge rest servers
      end
  end.

(** The generic SSE scan for the same methods. *)
Fixpoint roster_from_sse (methods : list string) (servers : list BinaryInfo.t)
  : M (list BinaryInfo.t) :=
  match methods with
  | [] => ret servers
  | ev_method :: rest =>
      sse_res <~ _sse_wait_for (Some ev_method) (JObj []) ["servers"; "binaries"; "list"] None 6 ;;
      match sse_res with
      | Some (JArr ((_ :: _) as items)) =>
          let '(servers', ok) := parse_servers true true items servers in
          if ok && nonempty servers' then ret servers'
          else roster_from_sse rest servers'
      | _ => roster_from_sse rest servers
      end
  end.

(** The REST-style endpoints; the loop stops after the first list that
    parses without an exception. *)
Fixpoint roster_from_rest (endpoints : list string) (servers : list BinaryInfo.t)
  : M (list BinaryInfo.t) :=
  match endpoints with
  | [] => ret servers
  | endpoint :: rest =>
      data <~ _http_get_json endpoint [] ;;
      match data with
      | JArr ((_ :: _) as items) =>
          let '(servers', ok) := parse_servers false false items servers in
          if ok then ret servers' else roster_from_rest rest servers'
      | _ => roster_from_rest rest servers
      end
  end.

Definition list_methods : list string :=
  ["list_binary_servers"; "list_binja_servers"; "list_binja_servers_smart-diff"].

Definition known_binaries : list BinaryInfo.t :=
  [ BinaryInfo.mk "port_9009" "libimp.so (T31 v1.1.6)" "mips32" 0;
    BinaryInfo.mk "port_9012" "libimp.so (T23)" "mips32" 0;
    BinaryInfo.mk "port_9013" "tx-isp-t23.ko" "mips32" 0 ].

(** [for b in bs: d[b.binary_id] = b] *)
Definition insert_all (bs : list BinaryInfo.t) (d : gmap string BinaryInfo.t)
  : gmap string BinaryInfo.t :=
  foldl (fun m b => <[BinaryInfo.binary_id b := b]> m) d bs.

Definition set_binaries (f : gmap string BinaryInfo.t -> gmap string BinaryInfo.t)
  : M unit := fun st => (with_binaries (f (available_binaries st)) st, tt).

(** The transports [list_binaries] tries before it looks at [servers]:
    the bridge methods, the SSE scan, then the REST endpoints. *)
Definition live_roster : M (list BinaryInfo.t) :=
  _ensure_sse_background ;;;
  base <~ get_base_url ;;
  servers <~ (if Py.truthy_opt base then
                servers <~ roster_from_bridge list_methods [] ;;
                if nonempty servers then ret servers
                else roster_from_sse list_methods servers
              else ret []) ;;
  if negb (nonempty servers) && Py.truthy_opt base
  then roster_from_rest ["servers"; "list_binja_servers"; "api/servers"] servers
  else ret servers.

(** [list_binaries]: a non-empty live roster replaces the cache
    ([{b.binary_id: b for b in servers}]); otherwise the known binaries
    are added to it and returned. *)
Definition list_binaries : M (list BinaryInfo.t) :=
  servers <~ live_roster ;;
  if nonempty servers then
    set_binaries (fun _ => insert_all servers ∅) ;;;
    ret servers
  else
    set_binaries (insert_all known_binaries) ;;;
    ret known_binaries.

(** *** [_resolve_binary_id] *)

Definition is_cached (binary_id : string) : M bool := fun st =>
  (st, bool_decide (is_Some (available_binaries st !! binary_id))).

(** [_resolve_binary_id]. The [try] around [self.list_binaries()] has
    nothing to catch: every statement of [list_binaries] that can raise
    is inside a [try] of its own. *)
Definition _resolve_binary_id (binary_id : string) : M string :=
  base <~ get_base_url ;;
  if negb (Py.truthy_opt base) then ret binary_id
  else
    cached <~ is_cached binary_id ;;
    if cached then ret binary_id
    else
      servers <~ list_binaries ;;
      if nonempty servers then
        match find (fun b => String.eqb (BinaryInfo.binary_id b) binary_id
                              || String.eqb (BinaryInfo.name b) binary_id) servers with
        | Some b => ret (BinaryInfo.binary_id b)
        | None =>
            if PyStr.startswith binary_id "port_" && bool_decide (length servers = 1%nat)
            then ret (from_option BinaryInfo.binary_id binary_id (head servers))
            else if bool_decide (length servers = 1%nat)
            then ret (from_option BinaryInfo.binary_id binary_id (head servers))
            else ret binary_id
        end
      else ret binary_id.

(** *** Early returns *)

(** [m1], and [m2] only when [m1] did not return from the function. *)
Definition or_else {A} (m1 m2 : M (option A)) : M (option A) :=
  r <~ m1 ;;
  match r with
  | Some a => ret (Some a)
  | None => m2
  end.

(** A [for] loop whose body may return from the function. *)
Fixpoint first_of {A B} (body : B -> M (option A)) (l : list B) : M (option A) :=
  match l with
  | [] => ret None
  | x :: r => or_else (body x) (first_of body r)
  end.

(** [if cond: block] *)
Definition when {A} (cond : bool) (block : M (option A)) : M (option A) :=
  if cond then block else ret None.

(** *** [decompile_function] *)

Definition nonblank (s : string) : bool := negb (PyStr.is_empty (PyStr.strip s)).

(** [isinstance(code, str) and code.strip()] on a direct reply:
    [code = obj.get("decompiled") or obj.get("decompiled_code") or
    obj.get("code") or obj.get("text")]. *)
Definition direct_code (obj : json) : option string :=
  match obj with
  | JObj d =>
      match Py.or (Py.or (Py.or (Py.get d "decompiled") (Py.get d "decompiled_code"))
                         (Py.get d "code")) (Py.get d "text") with
      | JStr code => if nonblank code then Some code else None
      | _ => None
      end
  | _ => None
  end.

(** [code and str(code).strip()] on a bridge result dict. *)
Definition bridge_dict_code (d : list (string * json)) : option string :=
  let code := Py.or (Py.or (Py.get d "decompiled_code") (Py.get d "code")) (Py.get d "text") in
  if Py.truthy code && nonblank (py_str code) then Some (py_str code) else None.

(** A synchronous bridge result: a dict is searched for code, a
    non-blank string is the code itself. *)
Definition code_of_result (res : json) : option string :=
  match res with
  | JObj d => bridge_dict_code d
  | JStr s => if nonblank s then Some s else None
  | _ => None
  end.

(** The result of a wait: the string test comes first. *)
Definition code_of_event (res : option json) : option string :=
  match res with
  | Some (JStr s) => if nonblank s then Some s else None
  | Some (JObj d) => bridge_dict_code d
  | _ => None
  end.

Definition decompile_keys : list string := ["decompiled_code"; "code"; "text"].

Definition decompile_methods (resolved_id function_name : string) : list (string * json) :=
  [ ("decompile_binary_function_smart-diff",
     JObj [("binary_id", JStr resolved_id); ("function_name", JStr function_name)]);
    ("decompile_binary_function_smart_diff",
     JObj [("binary_id", JStr resolved_id); ("function_name", JStr function_name)]);
    ("decompile_binary_function",
     JObj [("binary_id", JStr resolved_id); ("function_name", JStr function_name)]);
    ("decompile",
     JObj [("binary_id", JStr resolved_id); ("function", JStr function_name)]) ].

(** The direct transport of [decompile_function]: GET, then POST. *)
Definition decompile_direct (direct_base function_name : string) : M (option string) :=
  or_else
    (obj <~ _http_get_json_full (direct_base +:+ "/decompile") [("name", function_name)] ;;
     ret (direct_code obj))
    (obj <~ _http_post_json_full (direct_base +:+ "/decompile")
                                 (JObj [("name", JStr function_name)]) ;;
     ret (direct_code obj)).

(** The body of the loop over the bridge methods. *)
Definition decompile_attempt (function_name : string) (mp : string * json)
  : M (option string) :=
  let '(method, params) := mp in
  req_id <~ uuid4 ;;
  or_else (sync_res <~ _bridge_call_jsonrpc method params req_id ;;
           ret (code_of_result sync_res))
  (or_else (sse_res <~ _sse_wait_for_id req_id decompile_keys (Some function_name) 20 ;;
            ret (code_of_event sse_res))
  (or_else (res <~ _bridge_call method params ;;
            ret (code_of_result res))
           (sse_any <~ _sse_wait_for (Some method) params decompile_keys
                                     (Some function_name) 8 ;;
            ret (code_of_event sse_any)))).

Definition decompile_rest (binary_id function_name : string) : M (option string) :=
  first_of (fun pp : string * list (string * string) =>
              txt <~ _http_get_text pp.1 pp.2 ;;
              ret match txt with
                  | Some t => if nonblank t then Some t else None
                  | None => None
                  end)
           [ ("binaries/" +:+ binary_id +:+ "/decompile", [("function", function_name)]);
             (binary_id +:+ "/decompile", [("function", function_name)]);
             ("decompile", [("binary_id", binary_id); ("function", function_name)]) ].

(** [decompile_function] *)
Definition decompile_function (binary_id function_name : string) : M (option string) :=
  _ensure_sse_background ;;;
  let direct_base := _direct_base_from_binary_id binary_id in
  base <~ get_base_url ;;
  or_else (when (Py.truthy_opt direct_base)
                (decompile_direct (default "" direct_base) function_name))
  (or_else (when (Py.truthy_opt base)
                 (resolved_id <~ _resolve_binary_id binary_id ;;
                  first_of (decompile_attempt function_name)
                           (decompile_methods resolved_id function_name)))
           (when (Py.truthy_opt base) (decompile_rest binary_id function_name))).

(** *** [list_functions] *)

(** [[str(x.get("name") if isinstance(x, dict) else x) for x in maybe]] *)
Definition direct_names (maybe : list json) : list string :=
  map (fun x => py_str match x with JObj d => Py.get d "name" | _ => x end) maybe.

(** [[str(x.get("name") or x.get("symbol") or x) for x in l]]: [x.get]
    raises on an element that is not a dict. *)
Fixpoint sync_names (l : list json) : attempt (list string) :=
  match l with
  | [] => Done []
  | JObj d as x :: r =>
      match sync_names r with
      | Done ns => Done (py_str (Py.or (Py.or (Py.get d "name") (Py.get d "symbol")) x) :: ns)
      | Raised => Raised
      end
  | _ :: _ => Raised
  end.

(** The loop that collects [names] from strings and dicts. *)
Fixpoint collect_names (l : list json) : list string :=
  match l with
  | [] => []
  | JStr s :: r => s :: collect_names r
  | JObj d :: r =>
      let n := Py.or (Py.get d "name") (Py.get d "symbol") in
      if Py.truthy n then py_str n :: collect_names r else collect_names r
  | _ :: r => collect_names r
  end.

(** [if isinstance(v, list): names = ...; if names: return names] *)
Definition names_if_list (v : json) : option (attempt (list string)) :=
  match v with
  | JArr l => if nonempty (collect_names l) then Some (Done (collect_names l)) else None
  | _ => None
  end.

Definition function_methods : list string :=
  ["list_binary_functions_smart-diff"; "list_binary_functions_smart_diff";
   "list_functions"; "list_binary_functions"].

Definition function_keys : list string := ["functions"; "names"; "symbols"].

Definition function_params (resolved_id : string) (search : option string) : json :=
  if Py.truthy_opt search
  then JObj [("binary_id", JStr resolved_id); ("search", JStr (default "" search))]
  else JObj [("binary_id", JStr resolved_id)].

Definition imp_functions : list string :=
  ["IMP_System_Init";"IMP_System_Exit";"IMP_System_GetVersion";"IMP_System_Bind";"IMP_System_UnBind";
   "IMP_Encoder_CreateGroup";"IMP_Encoder_DestroyGroup";"IMP_Encoder_CreateChn";"IMP_Encoder_DestroyChn";
   "IMP_Encoder_RegisterChn";"IMP_Encoder_UnRegisterChn";"IMP_Encoder_StartRecvPic";"IMP_Encoder_StopRecvPic";
   "IMP_Encoder_Query";"IMP_Encoder_GetStream";"IMP_Encoder_ReleaseStream";"IMP_FrameSource_CreateChn";
   "IMP_FrameSource_DestroyChn";"IMP_FrameSource_SetChnAttr";"IMP_FrameSource_GetChnAttr";"IMP_FrameSource_EnableChn";
   "IMP_FrameSource_DisableChn";"IMP_FrameSource_SetFrameDepth";"IMP_FrameSource_GetFrameDepth";"IMP_ISP_Open";
   "IMP_ISP_Close";"IMP_ISP_AddSensor";"IMP_ISP_DelSensor";"IMP_ISP_EnableSensor";"IMP_ISP_DisableSensor";
   "IMP_ISP_SetSensorRegister";"IMP_ISP_GetSensorRegister";"IMP_ISP_Tuning_SetContrast";"IMP_ISP_Tuning_GetContrast";
   "IMP_ISP_Tuning_SetBrightness";"IMP_ISP_Tuning_GetBrightness";"IMP_ISP_Tuning_SetSaturation";"IMP_ISP_Tuning_GetSaturation";
   "IMP_ISP_Tuning_SetSharpness";"IMP_ISP_Tuning_GetSharpness";"IMP_OSD_CreateGroup";"IMP_OSD_DestroyGroup";
   "IMP_OSD_RegisterRgn";"IMP_OSD_UnRegisterRgn";"IMP_OSD_SetRgnAttr";"IMP_OSD_GetRgnAttr";"IMP_OSD_ShowRgn";"IMP_OSD_HideRgn";
   "IMP_IVS_CreateGroup";"IMP_IVS_DestroyGroup";"IMP_IVS_CreateChn";"IMP_IVS_DestroyChn";"IMP_IVS_RegisterChn";"IMP_IVS_UnRegisterChn";
   "IMP_IVS_StartRecvPic";"IMP_IVS_StopRecvPic";"IMP_IVS_PollingResult";"IMP_IVS_GetResult";"IMP_IVS_ReleaseResult"].

(** The static fallback: the whole list, or with a search term the names
    that contain it, case-insensitively. *)
Definition static_functions (search : option string) : list string :=
  if Py.truthy_opt search
  then filter (fun f => PyStr.contains (PyStr.lower (default "" search)) (PyStr.lower f) = true)
              imp_functions
  else imp_functions.

Definition functions_direct (direct_base : string) : M (option (attempt (list string))) :=
  obj <~ _http_get_json_full (direct_base +:+ "/functions") [] ;;
  ret match obj with
      | JObj d =>
          match Py.or (Py.or (Py.get d "functions") (Py.get d "methods")) (Py.get d "names") with
          | JArr maybe => Some (Done (direct_names maybe))
          | _ => None
          end
      | _ => None
      end.

(** The body of the first loop over the bridge methods. *)
Definition functions_attempt (resolved_id : string) (search : option string)
           (method : string) : M (option (attempt (list string))) :=
  req_id <~ uuid4 ;;
  or_else (sync_res <~ _bridge_call_jsonrpc method (function_params resolved_id search) req_id ;;
           ret match sync_res with
               | JArr l => Some (sync_names l)
               | JObj d =>
                   match Py.or (Py.get d "functions") (Py.get d "names") with
                   | JArr maybe => Some (sync_names maybe)
                   | _ => None
                   end
               | _ => None
               end)
          (sse_res <~ _sse_wait_for_id req_id function_keys None 10 ;;
           ret (names_if_list (default JNull sse_res))).

(** [for method in ...: res = self._bridge_call(...); if res: break] *)
Fixpoint functions_generic (resolved_id : string) (search : option string)
         (methods : list string) (res : json) : M json :=
  match methods with
  | [] => ret res
  | method :: rest =>
      res' <~ _bridge_call method (function_params resolved_id search) ;;
      if Py.truthy res' then ret res'
      else functions_generic resolved_id search rest res'
  end.

Definition functions_bridge (binary_id : string) (search : option string)
  : M (option (attempt (list string))) :=
  resolved_id <~ _resolve_binary_id binary_id ;;
  or_else (first_of (functions_attempt resolved_id search) function_methods)
  (or_else (res <~ functions_generic resolved_id search function_methods JNull ;;
            ret (names_if_list res))
           (first_of (fun ev_method =>
                        sse_names <~ _sse_wait_for (Some ev_method)
                                       (JObj [("binary_id", JStr resolved_id)])
                                       function_keys None 6 ;;
                        ret (names_if_list (default JNull sse_names)))
                     function_methods)).

Definition functions_rest (binary_id : string) (search : option string)
  : M (option (attempt (list string))) :=
  let params := if Py.truthy_opt search then [("search", default "" search)] else [] in
  first_of (fun path => data <~ _http_get_json path params ;; ret (names_if_list data))
           [ "binaries/" +:+ binary_id +:+ "/functions"; binary_id +:+ "/functions" ].

(** [list_functions]; [Raised] when a list comprehension over a
    synchronous bridge result raises. *)
Definition list_functions (binary_id : string) (search : option string)
  : M (attempt (list string)) :=
  let direct_base := _direct_base_from_binary_id binary_id in
  base <~ get_base_url ;;
  r <~ or_else (when (Py.truthy_opt direct_base) (functions_direct (default "" direct_base)))
       (or_else (when (Py.truthy_opt base) (functions_bridge binary_id search))
                (when (Py.truthy_opt base) (functions_rest binary_id search))) ;;
  ret (default (Done (static_functions search)) r).

End Client.

(** * The reader's stream parsing *)

(** ** More string primitives *)

Module PyText.

(** The characters at which [str.splitlines] breaks, among the code
    points 0..255: LF, VT, FF, CR, FS, GS, RS and NEL. *)
Definition is_linebreak (c : ascii) : bool :=
  let n := PyStr.code c in
  ((10 <=? n) && (n <=? 13) || (28 <=? n) && (n <=? 30) || (n =? 133))%N.

(** [s.splitlines()], [cur] being the line read so far; CR LF is one
    break, and a final break opens no further line. *)
Fixpoint splitlines_from (cur s : string) : list string :=
  match s with
  | EmptyString => if PyStr.is_empty cur then [] else [cur]
  | String c r =>
      if is_linebreak c then
        cur :: match r with
               | String c' r' =>
                   if ((PyStr.code c =? 13) && (PyStr.code c' =? 10))%N
                   then splitlines_from "" r'
                   else splitlines_from "" r
               | EmptyString => []
               end
      else splitlines_from (cur +:+ String c "") r
  end.

Definition splitlines (s : string) : list string := splitlines_from "" s.

(** [s[n:]] *)
Fixpoint drop_str (n : nat) (s : string) : string :=
  match n, s with
  | S n', String _ r => drop_str n' r
  | _, _ => s
  end.

(** [sep.join(l)] *)
Fixpoint join (sep : string) (l : list string) : string :=
  match l with
  | [] => ""
  | [s] => s
  | s :: r => s +:+ sep +:+ join sep r
  end.

(** A line feed. *)
Definition LF : string := String (ascii_of_nat 10) "".

End PyText.

(** ** [_sse_background] and [_sse_iter] *)

(** One [resp.readline()] of the stream: the decoded line with the clock
    at that moment, the [OSError] with errno 11 or 115 after which the
    loop goes on, or any other exception (also of [urlopen]), after which
    [_sse_background] reconnects and [_sse_iter] returns. *)
Inductive read : Type :=
| Chunk (now : time) (text : string)
| Again
| Broken.

Section Reader.

(** [json.loads] on a text; [None] when it raises. *)
Context (json_loads : string -> option json).

(** [[ln[5:].strip() for ln in buf.splitlines() if ln.startswith("data:")]] *)
Definition data_lines (buf : string) : list string :=
  map (fun ln => PyStr.strip (PyText.drop_str 5 ln))
      (List.filter (fun ln => PyStr.startswith ln "data:") (PyText.splitlines buf)).

(** The event of a completed block: none without [data:] lines or when
    their concatenation does not parse. *)
Definition block_event (buf : string) : option json :=
  match data_lines buf with
  | [] => None
  | ls => json_loads (PyText.join PyText.LF ls)
  end.

(** One turn of the inner loop of [_sse_background] on the pending block
    [buf]. *)
Definition reader_step (s : string * Client) (r : read) : string * Client :=
  let '(buf, c) := s in
  match r with
  | Again => (buf, c)
  | Broken => ("", c)
  | Chunk now chunk =>
      if PyStr.is_empty chunk then (buf, c)
      else if PyStr.is_empty (PyStr.strip chunk) then
        if PyStr.is_empty buf then (buf, c)
        else ("", match block_event buf with
                  | Some obj => _enqueue_event now obj c
                  | None => c
                  end)
      else (buf +:+ chunk, c)
  end.

(** [_sse_background] after the reads [reads]: the pending block and the
    client. Without a base URL, or with [_sse_running] cleared, the reader
    reads nothing. *)
Definition _sse_background (reads : list read) (c : Client) : string * Client :=
  if negb (Py.truthy_opt (base_url c)) || negb (_sse_running c) then ("", c)
  else foldl reader_step ("", c) reads.



End Reader.

(** * Callers of the client *)

Module FunctionContext.
(** [@dataclass FunctionContext] of [binary_context.py], after
    [__post_init__]. *)
Record t : Type := mk {
  name : string;
  exists_in_binary : bool;
  binary_id : option string;
  address : option Z;
  callers : list string;
  callees : list string;
  is_wrapper : bool;
  notes : string
}.
End FunctionContext.

Module BinaryContextManager.
(** The fields of [BinaryContextManager]; [mcp] is the state of its
    client. *)
Record t : Type := mk {
  binary_id : string;
  mcp : Client;
  functions : gmap string FunctionContext.t;
  binary_functions : gset string
}.
End BinaryContextManager.

Section Callers.

Context (env : Env) (py_repr : json -> string).




(** [BinaryContextManager.__init__] *)
Definition new_manager (environ : string -> option string) (binary_id : string)
  : BinaryContextManager.t :=
  BinaryContextManager.mk binary_id (__init__ environ "mcp" None) ∅ ∅.

(** The loop body of [load_binary_functions] for one name. *)
Definition note_function (binary_id : string)
           (acc : gmap string FunctionContext.t * gset string) (func_name : string)
  : gmap string FunctionContext.t * gset string :=
  (<[func_name := FunctionContext.mk func_name true (Some binary_id) None [] [] false ""]> acc.1,
   {[func_name]} ∪ acc.2).

(** [BinaryContextManager.load_binary_functions]: the number of known
    binary functions, or 0 when [list_functions] raises. *)
Definition load_binary_functions (m : BinaryContextManager.t)
  : BinaryContextManager.t * Z :=
  let '(c, r) := list_functions env py_repr (BinaryContextManager.binary_id m) None
                                (BinaryContextManager.mcp m) in
  match r with
  | Raised =>
      (BinaryContextManager.mk (BinaryContextManager.binary_id m) c
                               (BinaryContextManager.functions m)
                               (BinaryContextManager.binary_functions m), 0)
  | Done binary_funcs =>
      let '(fs, bs) := foldl (note_function (BinaryContextManager.binary_id m))
                             (BinaryContextManager.functions m,
                              BinaryContextManager.binary_functions m) binary_funcs in
      (BinaryContextManager.mk (BinaryContextManager.binary_id m) c fs bs,
       Z.of_nat (size bs))
  end.

End Callers.

(** [BinaryContextManager.should_skip_function] *)
Definition should_skip_function (function_name : string) (m : BinaryContextManager.t)
  : BinaryContextManager.t * bool :=
  if bool_decide (BinaryContextManager.binary_functions m = ∅) then (m, false)
  else
    match BinaryContextManager.functions m !! function_name with
    | None =>
        if bool_decide (function_name ∈ BinaryContextManager.binary_functions m) then
          (BinaryContextManager.mk
             (BinaryContextManager.binary_id m) (BinaryContextManager.mcp m)
             (<[function_name := FunctionContext.mk function_name true
                                   (Some (BinaryContextManager.binary_id m)) None [] [] false ""]>
                (BinaryContextManager.functions m))
             (BinaryContextManager.binary_functions m),
           false)
        else (m, true)
    | Some ctx => (m, negb (FunctionContext.exists_in_binary ctx))
    end.

(** * Notions used in the statements *)



(** The flood of the specification: event [i] arrives at time [i]. *)
Definition numbered (first count : nat) : list event :=
  map (fun i => (Z.of_nat i, JInt (Z.of_nat i))) (seq first count).

(** A client operation that leaves the observation [f] of the client
    as it was. *)
Definition keeps {X A} (f : Client -> X) (m : M A) : Prop :=
  forall st, f (m st).1 = f st.

(** An observation that does not depend on the reader, the buffer or
    the bookkeeping. *)
Definition settled {X} (f : Client -> X) : Prop :=
  (forall t r st, f (with_reader t r st) = f st)
  /\ (forall evs st, f (with_events evs st) = f st)
  /\ (forall rs st, f (with_requests rs st) = f st)
  /\ (forall n st, f (with_uuids n st) = f st)
  /\ (forall n st, f (with_waits n st) = f st).

(** [m] sends at most [r] requests, begins at most [w] waits and draws
    at most [u] request ids, and only extends the log of requests. *)
Definition spends {A} (r w u : nat) (m : M A) : Prop :=
  forall st,
    (exists new, requests (m st).1 = requests st ++ new /\ (length new <= r)%nat)
    /\ (waits_begun st <= waits_begun (m st).1 <= waits_begun st + w)%nat
    /\ (uuids_drawn st <= uuids_drawn (m st).1 <= uuids_drawn st + u)%nat.

(** [m] keeps the property [I] of the client. *)
Definition preserves {A} (I : Client -> Prop) (m : M A) : Prop :=
  forall st, I st -> I (m st).1.

(** A property of the client that survives every update of a field
    other than the buffer, and the arrival of an event. *)
Definition durable (I : Client -> Prop) : Prop :=
  (forall t r st, I st -> I (with_reader t r st))
  /\ (forall rs st, I st -> I (with_requests rs st))
  /\ (forall n st, I st -> I (with_uuids n st))
  /\ (forall n st, I st -> I (with_waits n st))
  /\ (forall b st, I st -> I (with_binaries b st))
  /\ (forall now obj st, I st -> I (_enqueue_event now obj st)).

(** Every value [m] returns satisfies [P]. *)
Definition yields {A} (P : A -> Prop) (m : M (option A)) : Prop :=
  forall st a, (m st).2 = Some a -> P a.

(** The buffer is within its bound. *)
Definition buffer_bounded (st : Client) : Prop :=
  (length (_sse_events st) <= SSE_MAXLEN)%nat.

(** A read that ends a block: a line that is not empty and holds only
    white space. *)
Definition blank_read (r : read) : bool :=
  match r with
  | Chunk _ text => negb (PyStr.is_empty text) && PyStr.is_empty (PyStr.strip text)
  | _ => false
  end.


(** A line of a block as the stream carries it: no line break inside,
    and not only white space. *)
Definition block_line (l : string) : Prop :=
  PyStr.forallb_str (fun c => negb (PyText.is_linebreak c)) l = true
  /\ PyStr.forallb_str PyStr.is_space l = false.


(** A manager whose function contexts all come from the binary's list
    of names [names]. *)
Definition loaded (names : gset string) (m : BinaryContextManager.t) : Prop :=
  BinaryContextManager.binary_functions m = names
  /\ forall f ctx, BinaryContextManager.functions m !! f = Some ctx ->
                   FunctionContext.exists_in_binary ctx = true /\ f ∈ names.

(** The text of a block whose lines end in a line feed. *)
Definition block_text (lines : list string) : string :=
  foldr (fun l acc => l +:+ PyText.LF +:+ acc) "" lines.

(** ** Scenarios *)

(** A client of a bridge whose reader thread is running. *)
Definition bridge_client : Client :=
  __init__ (fun _ => None) "mcp" (Some "http://localhost:8011").

Definition listening_client : Client :=
  with_reader (Some (BNMCPSSE true)) true bridge_client.

(** A client with no base URL configured. *)
Definition offline_client : Client := __init__ (fun _ => None) "mcp" None.

(** A JSON-RPC reply for request [req-1], buffered at time 5. *)
Definition reply_event (code : string) : event :=
  (5, JObj [("jsonrpc", JStr "2.0"); ("id", JStr "req-1");
            ("result", JObj [("code", JStr code)])]).

(** A bridge that answers nothing; each wait starts at time 10 and makes
    one pass, at time 10, during which nothing arrives. *)
Definition silent_env : Env :=
  mkEnv (fun _ _ => Failed) (fun _ => "req-1")
        (fun _ => mkSchedule 10 [mkRound 10 [] 10]).

(** A bridge that answers the JSON-RPC method [list_binary_servers]
    synchronously with [roster n], [n] being the number of requests it
    has seen, and fails every other request. The body text is abridged. *)
Definition roster_env (roster : nat -> json) : Env :=
  mkEnv (fun n req =>
           match req with
           | POST _ (JObj kv) _ =>
               if Py.eq_str (Py.get kv "method") "list_binary_servers"
                  && Py.eq_str (Py.get kv "jsonrpc") "2.0"
               then Reply 200 "{...}"
                          (Some (JObj [("jsonrpc", JStr "2.0"); ("id", Py.get kv "id");
                                       ("result", roster n)]))
               else Failed
           | _ => Failed
           end)
        (fun n => "req-" +:+ PyStr.str_of_int (Z.of_nat n))
        (fun _ => mkSchedule 10 []).

Definition backend (id name : string) : json :=
  JObj [("id", JStr id); ("name", JStr name)].

(** A Binary Ninja server on port 9009 that decompiles [f]; nothing
    else answers. *)
Definition direct_env : Env :=
  mkEnv (fun _ req =>
           match req with
           | GET url _ _ =>
               if String.eqb url "http://localhost:9009/decompile"
               then Reply 200 "{...}"
                          (Some (JObj [("decompiled_code", JStr "int f(){return 0;}")]))
               else Failed
           | _ => Failed
           end)
        (fun _ => "req-1")
        (fun _ => mkSchedule 10 []).

(** No scenario applies [str] to a float, a list or a dict. *)
Definition repr_unused : json -> string := fun _ => "".

(** A bridge that answers every request with a plain list of two
    function names. *)
Definition names_env : Env :=
  mkEnv (fun _ _ => Reply 200 "[...]"
                          (Some (JArr [JStr "IMP_System_Init"; JStr "IMP_System_Exit"])))
        (fun _ => "req-1")
        (fun _ => mkSchedule 10 []).

(** A client of the bridge that has [srv1] in its cache. *)
Definition cached_client : Client :=
  with_binaries {["srv1" := BinaryInfo.mk "srv1" "libimp.so" "mips32" 0]} bridge_client.

(** * Properties *)

(** ** String primitives *)

Module PyStrFacts.
Import PyStr.

Lemma forallb_str_impl (p q : ascii -> bool) s :
  (forall c, p c = true -> q c = true) ->
  forallb_str p s = true -> forallb_str q s = true.
Proof.
  intros Hpq. induction s as [|c r IH]; simpl; [done|].
  intros [Hc Hr]%andb_true_iff. by rewrite (Hpq _ Hc), IH.
Qed.

Lemma lstrip_by_id p s :
  forallb_str (fun c => negb (p c)) s = true -> lstrip_by p s = s.
Proof.
  destruct s as [|c r]; simpl; [done|].
  intros [Hc _]%andb_true_iff. by apply negb_true_iff in Hc as ->.
Qed.

Lemma lstrip_by_head p c r : p c = false -> lstrip_by p (String c r) = String c r.
Proof. intros H. simpl. by rewrite H. Qed.

Lemma rstrip_by_id p s :
  forallb_str (fun c => negb (p c)) s = true -> rstrip_by p s = s.
Proof.
  induction s as [|c r IH]; simpl; [done|].
  intros [Hc Hr]%andb_true_iff. apply negb_true_iff in Hc. by rewrite Hc, IH.
Qed.

Lemma last_segment_id sep s :
  forallb_str (fun d => negb (Ascii.eqb d sep)) s = true -> last_segment sep s = s.
Proof.
  destruct s as [|c r]; simpl; [done|].
  intros [Hc Hr]%andb_true_iff. apply negb_true_iff in Hc. by rewrite Hc, Hr.
Qed.

(** What a decimal digit is not. *)
Lemma dec_digit_other c :
  is_dec_digit c = true ->
  is_space c = false /\ Ascii.eqb c "_" = false /\ is_digit_char c = true
  /\ c <> "h"%char /\ c <> "p"%char /\ c <> "-"%char /\ c <> "+"%char.
Proof.
  destruct c as [[|] [|] [|] [|] [|] [|] [|] [|]]; vm_compute; intros H;
    try discriminate H; repeat split; discriminate.
Qed.

Lemma digits_no_space s :
  forallb_str is_dec_digit s = true ->
  forallb_str (fun c => negb (is_space c)) s = true.
Proof.
  apply forallb_str_impl. intros c Hc. by destruct (dec_digit_other c Hc) as [-> _].
Qed.

Lemma digits_no_underscore s :
  forallb_str is_dec_digit s = true ->
  forallb_str (fun c => negb (Ascii.eqb c "_")) s = true.
Proof.
  apply forallb_str_impl. intros c Hc. by destruct (dec_digit_other c Hc) as (_ & -> & _).
Qed.

Lemma digits_isdigit s :
  s <> "" -> forallb_str is_dec_digit s = true -> isdigit s = true.
Proof.
  intros Hne Hs. unfold isdigit. destruct s; [done|]. simpl is_empty. simpl negb.
  rewrite andb_true_l. revert Hs. apply forallb_str_impl.
  intros c Hc. by destruct (dec_digit_other c Hc) as (_ & _ & -> & _).
Qed.

Lemma strip_digits s : forallb_str is_dec_digit s = true -> strip s = s.
Proof.
  intros Hs. unfold strip. by rewrite !lstrip_by_id, rstrip_by_id by by apply digits_no_space.
Qed.

Lemma int_digits_digits s :
  forallb_str is_dec_digit s = true -> int_digits true s = Some s.
Proof.
  induction s as [|c r IH]; simpl; [done|].
  intros [Hc Hr]%andb_true_iff. by rewrite Hc, IH.
Qed.

Lemma uint_of_string_digits s :
  forallb_str is_dec_digit s = true ->
  exists d, NilEmpty.uint_of_string s = Some d.
Proof.
  induction s as [|c r IH]; simpl; [by eexists|].
  intros [Hc Hr]%andb_true_iff. destruct (IH Hr) as [d ->].
  revert Hc. destruct c as [[|] [|] [|] [|] [|] [|] [|] [|]]; vm_compute;
    intros H; try discriminate H; by eexists.
Qed.

(** [int] of a non-empty run of decimal digits within the length limit. *)
Lemma py_int_digits s :
  s <> "" -> forallb_str is_dec_digit s = true ->
  (String.length s <= int_max_str_digits)%nat ->
  exists d, NilEmpty.uint_of_string s = Some d
            /\ py_int s = Some (Z.of_N (N.of_uint d)).
Proof.
  intros Hne Hs Hlen. destruct (uint_of_string_digits s Hs) as [d Hd].
  exists d. split; [done|]. unfold py_int. rewrite strip_digits by done.
  destruct s as [|c r]; [done|].
  simpl in Hs. apply andb_true_iff in Hs as [Hc Hr].
  destruct (dec_digit_other c Hc) as (_ & _ & _ & _ & _ & Hm & Hp).
  assert (strip_sign (String c r) = (false, String c r)) as ->.
  { unfold strip_sign. destruct c as [[|] [|] [|] [|] [|] [|] [|] [|]]; try done. }
  simpl int_digits. rewrite Hc, int_digits_digits by done. simpl.
  rewrite decide_True by done. simpl in Hd. by rewrite Hd.
Qed.

Lemma nzhead_not_D0 d d' : nzhead d <> D0 d'.
Proof. induction d; simpl; congruence. Qed.

(** Dropping leading zeros of the text is [nzhead] of the digits. *)
Lemma string_of_nzhead d :
  NilEmpty.string_of_uint (nzhead d)
  = lstrip_by (Ascii.eqb "0") (NilEmpty.string_of_uint d).
Proof. induction d; simpl; auto. Qed.

Lemma str_of_int_of_N n :
  str_of_int (Z.of_N n) = NilEmpty.string_of_uint (N.to_uint n).
Proof.
  unfold str_of_int. rewrite Z.abs_eq, N2Z.id by lia.
  by destruct (Z.ltb_spec (Z.of_N n) 0); [lia|].
Qed.

(** [str(int(s))] for a run of digits [s]: zero when every digit is [0],
    else [s] without its leading zeros. *)
Lemma int_str_digits s d :
  NilEmpty.uint_of_string s = Some d ->
  let canon := lstrip_by (Ascii.eqb "0") s in
  if is_empty canon then Z.of_N (N.of_uint d) = 0
  else Z.of_N (N.of_uint d) <> 0 /\ str_of_int (Z.of_N (N.of_uint d)) = canon.
Proof.
  intros Hd canon. pose proof (NilEmpty.sus _ _ Hd) as Hs.
  assert (canon = NilEmpty.string_of_uint (nzhead d)) as Hcanon.
  { unfold canon. by rewrite string_of_nzhead, Hs. }
  rewrite Hcanon. destruct (nzhead d) as [|d'|d'|d'|d'|d'|d'|d'|d'|d'|d'] eqn:Hnz;
    simpl is_empty; cbv iota.
  { rewrite <- DecimalN.Unsigned.of_uint_norm. unfold unorm. by rewrite Hnz. }
  all: try (split;
    [ intros H0; apply (f_equal Z.to_N) in H0; rewrite N2Z.id in H0;
      pose proof (DecimalN.Unsigned.to_of d) as Hto; rewrite H0 in Hto;
      unfold unorm in Hto; rewrite Hnz in Hto; discriminate Hto
    | rewrite str_of_int_of_N, DecimalN.Unsigned.to_of; unfold unorm; by rewrite Hnz ]).
  by destruct (nzhead_not_D0 d d').
Qed.

End PyStrFacts.

(** ** The direct base URL of port-like identifiers *)

Lemma prefix_cons_ne a s c r : a <> c -> String.prefix (String a s) (String c r) = false.
Proof. intros Hne. simpl. by destruct (ascii_dec a c). Qed.

Lemma prefix_cons_eq a s r : String.prefix (String a s) (String a r) = String.prefix s r.
Proof. simpl. by destruct (ascii_dec a a). Qed.

Lemma prefix_nil s : String.prefix "" s = true.
Proof. by destruct s. Qed.

Lemma direct_base_of_port (bid seg : string) :
  PyStr.strip bid = bid ->
  PyStr.startswith bid "http://" = false ->
  PyStr.startswith bid "https://" = false ->
  (PyStr.startswith bid "port_" = true /\ PyStr.last_segment "_" bid = seg
   \/ PyStr.startswith bid "port_" = false /\ PyStr.isdigit bid = true /\ bid = seg) ->
  _direct_base_from_binary_id bid =
    match PyStr.py_int seg with
    | Some p => if p =? 0 then None else Some ("http://localhost:" +:+ PyStr.str_of_int p)
    | None => None
    end.
Proof.
  intros Hstrip Hh Hhs Hcase. unfold _direct_base_from_binary_id.
  rewrite Hstrip, Hh, Hhs. simpl orb. cbv iota.
  destruct Hcase as [[-> ->]|(-> & -> & ->)]; done.
Qed.

(** C3 (as amended). For a non-empty run [ds] of ASCII decimal digits
    (within the length [int] accepts), [_direct_base_from_binary_id]
    gives the same result for ["port_" + ds] and for [ds]: the digits are
    read as a number, so the URL is ["http://localhost:"] followed by [ds]
    without its leading zeros, and there is no URL at all when every
    digit is [0]. When [ds] does not start with [0] the URL carries
    exactly [ds]. *)
Theorem direct_base_port_digits (ds : string) :
  ds <> "" ->
  PyStr.forallb_str PyStr.is_dec_digit ds = true ->
  (String.length ds <= PyStr.int_max_str_digits)%nat ->
  let canon := PyStr.lstrip_by (Ascii.eqb "0") ds in
  let url := if PyStr.is_empty canon then None
             else Some ("http://localhost:" +:+ canon) in
  _direct_base_from_binary_id ("port_" +:+ ds) = url
  /\ _direct_base_from_binary_id ds = url
  /\ (PyStr.startswith ds "0" = false -> url = Some ("http://localhost:" +:+ ds)).
Proof.
  intros Hne Hds Hlen canon url.
  destruct (PyStrFacts.py_int_digits ds Hne Hds Hlen) as (d & Hd & Hint).
  pose proof (PyStrFacts.int_str_digits ds d Hd) as Hcanon. simpl in Hcanon.
  fold canon in Hcanon.
  assert (match PyStr.py_int ds with
          | Some p => if p =? 0 then None
                      else Some ("http://localhost:" +:+ PyStr.str_of_int p)
          | None => None
          end = url) as Hurl.
  { rewrite Hint. unfold url. destruct (PyStr.is_empty canon).
    - by rewrite Hcanon.
    - destruct Hcanon as [Hnz ->]. by apply Z.eqb_neq in Hnz as ->. }
  split; [|split].
  - rewrite <- Hurl.
    change ("port_" +:+ ds)
      with (String "p" (String "o" (String "r" (String "t" (String "_" ds))))).
    apply direct_base_of_port;
      [|by apply prefix_cons_ne|by apply prefix_cons_ne|].
    + unfold PyStr.strip.
      assert (PyStr.forallb_str (fun c => negb (PyStr.is_space c)) ("port_" +:+ ds) = true)
        as Hns by (simpl; by apply PyStrFacts.digits_no_space).
      change ("port_" +:+ ds)
        with (String "p" (String "o" (String "r" (String "t" (String "_" ds))))) in Hns.
      by rewrite PyStrFacts.lstrip_by_id, PyStrFacts.rstrip_by_id.
    + left. split; [unfold PyStr.startswith; by rewrite !prefix_cons_eq, prefix_nil|].
      simpl.
      by rewrite PyStrFacts.last_segment_id by by apply PyStrFacts.digits_no_underscore.
  - rewrite <- Hurl. destruct ds as [|c r]; [done|].
    simpl in Hds. apply andb_true_iff in Hds as [Hc Hr].
    destruct (PyStrFacts.dec_digit_other c Hc) as (_ & _ & _ & Hh & Hp & _).
    apply direct_base_of_port.
    + apply PyStrFacts.strip_digits. simpl. by rewrite Hc.
    + apply prefix_cons_ne. congruence.
    + apply prefix_cons_ne. congruence.
    + right. split; [apply prefix_cons_ne; congruence|]. split; [|done].
      apply PyStrFacts.digits_isdigit; [done|]. simpl. by rewrite Hc.
  - intros H0. unfold url, canon. destruct ds as [|c r]; [done|].
    unfold PyStr.startswith in H0. simpl in H0.
    destruct (ascii_dec "0" c) as [<-|Hc0]; [by destruct r|].
    apply Ascii.eqb_neq in Hc0. by rewrite PyStrFacts.lstrip_by_head.
Qed.

Lemma direct_base_port_digits_witness :
  _direct_base_from_binary_id "port_9009" = Some "http://localhost:9009"
  /\ _direct_base_from_binary_id "9009" = Some "http://localhost:9009".
Proof.
  destruct (direct_base_port_digits "9009") as (H1 & H2 & _);
    [discriminate | reflexivity | vm_compute; lia |].
  split; [exact H1 | exact H2].
Defined.

(** C3 fails as stated: leading zeros are not kept, and an all-zero port
    gives no URL. *)
Lemma direct_base_leading_zero_counterexample :
  PyStr.forallb_str PyStr.is_dec_digit "007" = true
  /\ PyStr.forallb_str PyStr.is_dec_digit "0" = true
  /\ _direct_base_from_binary_id "port_007" <> Some ("http://localhost:" +:+ "007")
  /\ _direct_base_from_binary_id "0" <> Some ("http://localhost:" +:+ "0").
Proof. vm_compute. repeat split; discriminate. Qed.

(** ** The ring buffer *)

Section Ring.
Context {A : Type}.

Lemma deque_append_length (maxlen : nat) (d : list A) (x : A) :
  (length d <= maxlen)%nat -> (length (deque_append maxlen d x) <= maxlen)%nat.
Proof.
  intros Hd. unfold deque_append. case_decide as Hfull.
  - rewrite length_drop, length_app. simpl. lia.
  - rewrite length_app in *. simpl in *. lia.
Qed.

(** Appending keeps the last [maxlen] elements of what was appended. *)
Lemma deque_append_last (maxlen : nat) (seen : list A) (x : A) :
  deque_append maxlen (drop (length seen - maxlen) seen) x
  = drop (length (seen ++ [x]) - maxlen) (seen ++ [x]).
Proof.
  unfold deque_append. rewrite length_app, length_drop, length_app. simpl.
  case_decide as Hfull.
  - rewrite <- drop_app_le by lia. rewrite drop_drop. f_equal. lia.
  - rewrite <- drop_app_le by lia. f_equal. lia.
Qed.

Lemma deque_fill (maxlen : nat) (es : list A) :
  foldl (deque_append maxlen) [] es = drop (length es - maxlen) es.
Proof.
  induction es as [|x es IH] using rev_ind; [done|].
  by rewrite foldl_app, IH; simpl; rewrite deque_append_last.
Qed.

End Ring.

Lemma enqueue_events_buffer (st : Client) (es : list event) :
  _sse_events (foldl (fun s ev => _enqueue_event ev.1 ev.2 s) st es)
  = foldl (deque_append SSE_MAXLEN) (_sse_events st) es.
Proof.
  revert st. induction es as [|[ts obj] es IH]; intros st; simpl; [done|].
  by rewrite IH.
Qed.

(** C4. The buffer never holds more than 500 events: [_enqueue_event]
    keeps a buffer within the bound and either appends the event at the
    end, or, when the buffer is full, drops the single oldest event and
    appends. Starting from the empty buffer of a new client, after any
    sequence of arrivals the buffer holds the last 500 of them in arrival
    order; after events 0..599 it holds exactly 100..599. *)
Theorem sse_buffer_ring :
  (forall st now obj,
      (length (_sse_events st) <= SSE_MAXLEN)%nat ->
      let buf' := _sse_events (_enqueue_event now obj st) in
      (length buf' <= SSE_MAXLEN)%nat
      /\ buf' = if decide (length (_sse_events st) < SSE_MAXLEN)%nat
                then _sse_events st ++ [(now, obj)]
                else drop 1 (_sse_events st) ++ [(now, obj)])
  /\ (forall environ cmd url (es : list event),
         let st := foldl (fun s ev => _enqueue_event ev.1 ev.2 s)
                         (__init__ environ cmd url) es in
         _sse_events st = drop (length es - SSE_MAXLEN) es
         /\ (length (_sse_events st) <= SSE_MAXLEN)%nat)
  /\ (forall environ cmd url,
         _sse_events (foldl (fun s ev => _enqueue_event ev.1 ev.2 s)
                            (__init__ environ cmd url) (numbered 0 600))
         = numbered 100 500).
Proof.
  split; [|split].
  - intros st now obj Hlen. simpl. split.
    + by apply deque_append_length.
    + unfold enqueue_buffer, deque_append. rewrite length_app. simpl length.
      unfold SSE_MAXLEN in *. repeat case_decide; try lia; [|done].
      by rewrite drop_app_le by lia.
  - intros environ cmd url es st. subst st. rewrite enqueue_events_buffer.
    change (_sse_events (__init__ environ cmd url)) with (@nil event).
    rewrite deque_fill. split; [done|]. rewrite length_drop. unfold SSE_MAXLEN. lia.
  - intros environ cmd url. rewrite enqueue_events_buffer.
    change (_sse_events (__init__ environ cmd url)) with (@nil event).
    by rewrite deque_fill.
Qed.

Lemma sse_buffer_ring_witness :
  let st := _enqueue_event 7 (JStr "b") (with_events [(5, JStr "a")] (__init__ (fun _ => None) "mcp" None)) in
  (length (_sse_events st) <= SSE_MAXLEN)%nat /\ _sse_events st = [(5, JStr "a"); (7, JStr "b")].
Proof.
  destruct sse_buffer_ring as [H _].
  apply (H (with_events [(5, JStr "a")] (__init__ (fun _ => None) "mcp" None)) 7 (JStr "b")).
  vm_compute. lia.
Defined.

(** ** Matching and scanning events *)


Lemma scan_some m last_checked evs v :
  scan m last_checked evs = Some v ->
  exists ts obj, (ts, obj) ∈ evs /\ last_checked < ts /\ m obj = Some v.
Proof.
  induction evs as [|[ts obj] evs IH]; simpl; [done|].
  destruct (Z.leb_spec ts last_checked) as [Hold|Hnew].
  - intros (ts' & obj' & Hin & H)%IH. exists ts', obj'. split; [by right|done].
  - destruct (m obj) as [w|] eqn:Hm.
    + intros [= <-]. exists ts, obj. split; [by left|done].
    + intros (ts' & obj' & Hin & H)%IH. exists ts', obj'. split; [by right|done].
Qed.



Lemma last_cons_default {A B} (f : A -> B) (x : A) (l : list A) (d : B) :
  default d (f <$> last (x :: l)) = default (f x) (f <$> last l).
Proof.
  destruct l as [|a l]; [done|]. change (last (x :: a :: l)) with (last (a :: l)).
  destruct (last (a :: l)) eqn:Hlast; [done|]. by apply last_None in Hlast.
Qed.

(** A value returned by the wait loop was matched, in some pass [r], on
    an event of the buffer as it is at the return, and that event is newer
    than the [last_checked] of the pass: the initial one in the first
    pass, the [now] of the previous pass afterwards. *)
Lemma wait_rounds_some m end_ last_checked rs st st' v :
  wait_rounds m end_ last_checked rs st = (st', Some v) ->
  exists pre r post ts obj,
    rs = pre ++ r :: post
    /\ (ts, obj) ∈ _sse_events st' /\ m obj = Some v
    /\ default last_checked (r_now <$> last pre) < ts.
Proof.
  revert last_checked st. induction rs as [|r rs IH]; intros lc st; simpl; [done|].
  destruct (r_enter r <? end_); [|done].
  destruct (scan m lc (_sse_events (deliver (r_arrivals r) st))) as [w|] eqn:Hscan.
  - intros [= <- <-]. apply scan_some in Hscan as (ts & obj & Hin & Hts & Hm).
    by exists [], r, rs, ts, obj.
  - intros (pre & r' & post & ts & obj & -> & Hin & Hm & Hts)%IH.
    exists (r :: pre), r', post, ts, obj. split; [done|]. split; [done|]. split; [done|].
    by rewrite last_cons_default.
Qed.



Lemma contains_empty s : PyStr.contains "" s = true.
Proof. destruct s; done. Qed.

Lemma extract_keys_hint f keys d s :
  extract_keys (Some f) keys d = Some (JStr s) -> PyStr.contains f s = true.
Proof.
  induction keys as [|k ks IH]; simpl; [done|].
  destruct (Py.has d k && (Py.is_str (Py.get d k) || Py.is_list (Py.get d k))); simpl; [|done].
  destruct (Py.get d k) as [| | | |s'| |] eqn:Hget; simpl; try done.
  destruct (PyStr.contains f s') eqn:Hc.
  - rewrite andb_false_r. simpl. by intros [= <-].
  - destruct f as [|c f']; [by rewrite contains_empty in Hc|]. done.
Qed.

Lemma extract_payload_hint f keys d s :
  extract_payload (Some f) keys d = Some (JStr s) -> PyStr.contains f s = true.
Proof.
  unfold extract_payload. destruct (extract_keys (Some f) keys d) as [w|] eqn:H1.
  - intros [= ->]. by eapply extract_keys_hint.
  - destruct (Py.get d "data") as [| | | | | |[|kv d']]; try done. apply extract_keys_hint.
Qed.

(** [_sse_wait_for] honours the hint: a string it matches on an event
    contains [function_name]. *)
Lemma wait_for_event_hint expect_method keys f obj s :
  wait_for_event expect_method keys (Some f) obj = Some (JStr s) ->
  PyStr.contains f s = true.
Proof.
  unfold wait_for_event.
  set (payload := match obj with JObj kv => _ | _ => obj end).
  destruct payload as [| | | | |l|p]; try done.
  - by destruct (existsb Py.is_str l).
  - destruct (_ && _); [done|]. apply extract_payload_hint.
Qed.

(** ** The two waits *)

(** The client as a wait loop finds it: after [_ensure_sse_background],
    with the wait counted. *)
Lemma ensure_sse_background_frame st :
  let st' := (_ensure_sse_background st).1 in
  mcp_command st' = mcp_command st /\ base_url st' = base_url st
  /\ available_binaries st' = available_binaries st
  /\ _sse_events st' = _sse_events st /\ requests st' = requests st
  /\ uuids_drawn st' = uuids_drawn st /\ waits_begun st' = waits_begun st.
Proof.
  unfold _ensure_sse_background.
  destruct (negb _); [done|]. by destruct (from_option _ _ _).
Qed.

Lemma sse_wait_for_unfold env expect_method expect_params keys hint timeout st :
  _sse_wait_for env expect_method expect_params keys hint timeout st
  = let ws := env_wait env (waits_begun st) in
    wait_rounds (wait_for_event expect_method keys hint)
                (ws_start ws + timeout * second) 0 (ws_rounds ws)
                (with_waits (S (waits_begun st)) (_ensure_sse_background st).1).
Proof.
  unfold _sse_wait_for, bind, begin_wait.
  destruct (ensure_sse_background_frame st) as (_ & _ & _ & _ & _ & _ & Hw).
  destruct (_ensure_sse_background st) as [st0 []]. simpl in *. by rewrite Hw.
Qed.

Lemma sse_wait_for_id_unfold env req_id keys hint timeout st :
  _sse_wait_for_id env req_id keys hint timeout st
  = let ws := env_wait env (waits_begun st) in
    wait_rounds (wait_for_id_event req_id keys hint)
                (ws_start ws + timeout * second) 0 (ws_rounds ws)
                (with_waits (S (waits_begun st)) (_ensure_sse_background st).1).
Proof.
  unfold _sse_wait_for_id, bind, begin_wait.
  destruct (ensure_sse_background_frame st) as (_ & _ & _ & _ & _ & _ & Hw).
  destruct (_ensure_sse_background st) as [st0 []]. simpl in *. by rewrite Hw.
Qed.





(** C6, evaluated where the code departs from it. A JSON-RPC envelope
    with the awaited id carries code that does not mention the hint [f]:
    the envelope branch of [_sse_wait_for_id] skips the value, and the
    branch for any dict with the id then returns it without looking at
    the hint. *)
Theorem sse_wait_for_id_returns_unhinted :
  let st := with_events [reply_event "int g(){}"] listening_client in
  (_sse_wait_for_id silent_env "req-1" decompile_keys (Some "f") 20 st).2
  = Some (JStr "int g(){}")
  /\ PyStr.contains "f" "int g(){}" = false
  /\ extract_payload (Some "f") decompile_keys [("code", JStr "int g(){}")] = None.
Proof. cbv zeta. repeat split; by vm_compute. Qed.

(** [_sse_wait_for] does honour the hint: a string it returns contains
    the [function_name] it was given. *)
Theorem sse_wait_for_honours_hint env expect_method expect_params keys f timeout st st' s :
  _sse_wait_for env expect_method expect_params keys (Some f) timeout st
  = (st', Some (JStr s)) ->
  PyStr.contains f s = true.
Proof.
  intros Hwait. rewrite sse_wait_for_unfold in Hwait.
  apply wait_rounds_some in Hwait as (_ & _ & _ & ts & obj & _ & _ & Hm & _).
  by eapply wait_for_event_hint.
Qed.

Lemma sse_wait_for_honours_hint_witness : PyStr.contains "f" "int f(){}" = true.
Proof.
  apply (sse_wait_for_honours_hint silent_env None (JObj []) decompile_keys "f" 10
           (with_events [reply_event "int f(){}"] listening_client)
           (with_waits 1 (with_events [reply_event "int f(){}"] listening_client))).
  vm_compute. reflexivity.
Defined.

(** ** What the transports leave alone *)

Lemma settled_base_url : settled base_url.
Proof. by repeat split. Qed.

Lemma settled_available_binaries : settled available_binaries.
Proof. by repeat split. Qed.

Lemma keeps_ret {X A} (f : Client -> X) (a : A) : keeps f (ret a).
Proof. by intros st. Qed.

Lemma keeps_bind {X A B} (f : Client -> X) (m : M A) (k : A -> M B) :
  keeps f m -> (forall a, keeps f (k a)) -> keeps f (bind m k).
Proof.
  intros Hm Hk st. unfold bind. specialize (Hm st).
  destruct (m st) as [st' a]. simpl in Hm. by rewrite Hk.
Qed.

Lemma keeps_get_base_url {X} (f : Client -> X) : keeps f get_base_url.
Proof. by intros st. Qed.

Lemma keeps_or_else {X A} (f : Client -> X) (m1 m2 : M (option A)) :
  keeps f m1 -> keeps f m2 -> keeps f (or_else m1 m2).
Proof.
  intros H1 H2. apply keeps_bind; [done|]. intros [a|]; [apply keeps_ret|done].
Qed.

Lemma keeps_first_of {X A B} (f : Client -> X) (body : B -> M (option A)) l :
  (forall x, keeps f (body x)) -> keeps f (first_of body l).
Proof.
  intros Hbody. induction l as [|x l IH]; simpl; [apply keeps_ret|].
  by apply keeps_or_else.
Qed.

Lemma keeps_when {X A} (f : Client -> X) (cond : bool) (block : M (option A)) :
  keeps f block -> keeps f (when cond block).
Proof. intros H. destruct cond; [done|apply keeps_ret]. Qed.

Create HintDb keeps.

(** Steps of a proof that an operation keeps an observation. *)
Ltac keeps_step :=
  first
    [ apply keeps_ret
    | apply keeps_get_base_url
    | apply keeps_bind; [|intros ?]
    | apply keeps_or_else
    | apply keeps_when
    | apply keeps_first_of; intros ?
    | match goal with
      | |- keeps _ (if ?b then _ else _) => destruct b
      | |- keeps _ (match ?x with _ => _ end) => destruct x
      end ].

Section Keeps.
Context (env : Env) (py_repr : json -> string).
Context {X : Type} (f : Client -> X) (Hf : settled f).

Lemma keeps_ensure_sse_background : keeps f _ensure_sse_background.
Proof.
  intros st. unfold _ensure_sse_background.
  destruct (negb _); [done|]. destruct (from_option _ _ _); [done|]. apply Hf.
Qed.

Lemma keeps_http req : keeps f (http env req).
Proof. intros st. apply Hf. Qed.

Lemma keeps_uuid4 : keeps f (uuid4 env).
Proof. intros st. apply Hf. Qed.

Lemma keeps_begin_wait : keeps f (begin_wait env).
Proof. intros st. apply Hf. Qed.

Lemma deliver_keeps arrivals st : f (deliver arrivals st) = f st.
Proof.
  unfold deliver. destruct (reader_active st); [|done].
  revert st. induction arrivals as [|ev evs IH]; intros st; simpl; [done|].
  rewrite IH. apply Hf.
Qed.

Lemma keeps_wait_rounds m end_ last_checked rs :
  keeps f (wait_rounds m end_ last_checked rs).
Proof.
  revert last_checked. induction rs as [|r rs IH]; intros lc st; simpl; [done|].
  destruct (r_enter r <? end_); [|done].
  destruct (scan m lc _); simpl; [apply deliver_keeps|].
  rewrite IH. apply deliver_keeps.
Qed.

#[local] Hint Resolve keeps_ensure_sse_background keeps_http keeps_uuid4 keeps_begin_wait
  keeps_wait_rounds : keeps.

Ltac keeps := repeat first [ solve [eauto with keeps] | keeps_step ].

Lemma keeps_sse_wait_for expect_method expect_params keys hint timeout :
  keeps f (_sse_wait_for env expect_method expect_params keys hint timeout).
Proof. unfold _sse_wait_for. keeps. Qed.

Lemma keeps_sse_wait_for_id req_id keys hint timeout :
  keeps f (_sse_wait_for_id env req_id keys hint timeout).
Proof. unfold _sse_wait_for_id. keeps. Qed.

Lemma keeps_http_get_json path params : keeps f (_http_get_json env path params).
Proof. unfold _http_get_json. keeps. Qed.

Lemma keeps_http_get_text path params : keeps f (_http_get_text env path params).
Proof. unfold _http_get_text. keeps. Qed.

Lemma keeps_http_get_json_full url query : keeps f (_http_get_json_full env url query).
Proof. unfold _http_get_json_full. keeps. Qed.

Lemma keeps_http_post_json_full url body : keeps f (_http_post_json_full env url body).
Proof. unfold _http_post_json_full. keeps. Qed.

Lemma keeps_bridge_call_jsonrpc method params req_id :
  keeps f (_bridge_call_jsonrpc env method params req_id).
Proof. unfold _bridge_call_jsonrpc. keeps. Qed.

Lemma keeps_bridge_try url payloads : keeps f (bridge_try env url payloads).
Proof. induction payloads as [|body rest IH]; simpl; keeps. Qed.

Lemma keeps_bridge_call method params : keeps f (_bridge_call env method params).
Proof. unfold _bridge_call. keeps_step; [keeps|]. keeps_step; [keeps|apply keeps_bridge_try]. Qed.

#[local] Hint Resolve keeps_sse_wait_for keeps_sse_wait_for_id keeps_http_get_json
  keeps_http_get_text keeps_http_get_json_full keeps_http_post_json_full
  keeps_bridge_call_jsonrpc keeps_bridge_call : keeps.

Lemma keeps_roster_from_bridge methods servers :
  keeps f (roster_from_bridge env py_repr methods servers).
Proof.
  revert servers. induction methods as [|method rest IH]; intros servers; simpl; keeps.
  all: try destruct (parse_servers _ _ _ _ _) as [servers' ok]; keeps.
Qed.

Lemma keeps_roster_from_sse methods servers :
  keeps f (roster_from_sse env py_repr methods servers).
Proof.
  revert servers. induction methods as [|method rest IH]; intros servers; simpl; keeps.
  all: try destruct (parse_servers _ _ _ _ _) as [servers' ok]; keeps.
Qed.

Lemma keeps_roster_from_rest endpoints servers :
  keeps f (roster_from_rest env py_repr endpoints servers).
Proof.
  revert servers. induction endpoints as [|endpoint rest IH]; intros servers; simpl; keeps.
  all: try destruct (parse_servers _ _ _ _ _) as [servers' ok]; keeps.
Qed.

#[local] Hint Resolve keeps_roster_from_bridge keeps_roster_from_sse keeps_roster_from_rest : keeps.

Lemma keeps_live_roster : keeps f (live_roster env py_repr).
Proof. unfold live_roster. keeps. Qed.

End Keeps.

(** ** The roster cache *)

Lemma insert_all_snoc bs b d :
  insert_all (bs ++ [b]) d = <[BinaryInfo.binary_id b := b]> (insert_all bs d).
Proof. unfold insert_all. by rewrite foldl_app. Qed.

(** After [for b in bs: d[b.binary_id] = b], the key of every element
    holds the last element with that key. *)
Lemma insert_all_lookup bs d b :
  b ∈ bs ->
  exists b', insert_all bs d !! BinaryInfo.binary_id b = Some b'
             /\ b' ∈ bs /\ BinaryInfo.binary_id b' = BinaryInfo.binary_id b
             /\ (NoDup (BinaryInfo.binary_id <$> bs) -> b' = b).
Proof.
  induction bs as [|x bs IH] using rev_ind; [by intros ?%elem_of_nil|].
  intros Hin. rewrite insert_all_snoc.
  destruct (decide (BinaryInfo.binary_id x = BinaryInfo.binary_id b)) as [Heq|Hne].
  - exists x. rewrite Heq, lookup_insert_eq. split; [done|].
    split; [apply elem_of_app; right; by apply list_elem_of_singleton|]. split; [done|].
    intros Hnd. rewrite fmap_app in Hnd. apply NoDup_app in Hnd as (_ & Hdisj & _).
    apply elem_of_app in Hin as [Hin|Hin%list_elem_of_singleton]; [|done].
    exfalso. apply (Hdisj (BinaryInfo.binary_id b)).
    + by apply list_elem_of_fmap_2.
    + simpl. rewrite Heq. by apply list_elem_of_singleton.
  - apply elem_of_app in Hin as [Hin|Hin%list_elem_of_singleton]; [|congruence].
    destruct (IH Hin) as (b' & Hlook & Hb' & Hid & Hnd).
    exists b'. rewrite lookup_insert_ne by done. split; [done|].
    split; [apply elem_of_app; by left|]. split; [done|].
    intros Hnd'. apply Hnd. rewrite fmap_app in Hnd'. by apply NoDup_app in Hnd' as (? & _).
Qed.

(** The two ways [list_binaries] ends. *)
Lemma list_binaries_cache env py_repr st st' servers :
  list_binaries env py_repr st = (st', servers) ->
  (servers <> [] /\ available_binaries st' = insert_all servers ∅)
  \/ (servers = known_binaries
      /\ available_binaries st' = insert_all known_binaries (available_binaries st)).
Proof.
  unfold list_binaries, bind.
  pose proof (keeps_live_roster env py_repr available_binaries
                settled_available_binaries st) as Hkeep.
  destruct (live_roster env py_repr st) as [st1 live]. simpl in Hkeep.
  destruct live as [|b live]; simpl; intros [= <- <-].
  - right. by rewrite Hkeep.
  - by left.
Qed.




(** ** Resolution of a binary id *)

(** C7. The single-backend heuristic: with a base URL configured and an
    identifier that is not a key of the cache, when the roster fetch
    returns exactly one backend whose id and name both differ from the
    identifier, [_resolve_binary_id] returns that backend's id. *)
Theorem resolve_single_backend env py_repr st st1 (binary_id : string) (b : BinaryInfo.t) :
  Py.truthy_opt (base_url st) = true ->
  available_binaries st !! binary_id = None ->
  list_binaries env py_repr st = (st1, [b]) ->
  BinaryInfo.binary_id b <> binary_id ->
  BinaryInfo.name b <> binary_id ->
  _resolve_binary_id env py_repr binary_id st = (st1, BinaryInfo.binary_id b).
Proof.
  intros Hbase Hmiss Hroster Hid Hname.
  unfold _resolve_binary_id, bind, get_base_url, is_cached. rewrite Hbase.
  cbn beta iota delta [negb]. rewrite Hmiss.
  rewrite bool_decide_false by by intros [? ?].
  rewrite Hroster. cbn beta iota delta [nonempty find].
  apply String.eqb_neq in Hid, Hname. rewrite Hid, Hname.
  cbn beta iota delta [orb]. simpl.
  by destruct (PyStr.startswith binary_id "port_").
Qed.

Lemma resolve_single_backend_witness :
  (_resolve_binary_id (roster_env (fun _ => JArr [backend "srv1" "libimp.so"]))
                      repr_unused "foo" bridge_client).2 = "srv1".
Proof.
  rewrite (resolve_single_backend
             (roster_env (fun _ => JArr [backend "srv1" "libimp.so"])) repr_unused
             bridge_client
             (list_binaries (roster_env (fun _ => JArr [backend "srv1" "libimp.so"]))
                            repr_unused bridge_client).1
             "foo" (BinaryInfo.mk "srv1" "libimp.so" "mips32" 0)).
  - reflexivity.
  - reflexivity.
  - reflexivity.
  - vm_compute. reflexivity.
  - discriminate.
  - discriminate.
Defined.

Lemma resolve_cached env py_repr st (binary_id : string) :
  is_Some (available_binaries st !! binary_id) ->
  _resolve_binary_id env py_repr binary_id st = (st, binary_id).
Proof.
  intros Hhit. unfold _resolve_binary_id, bind, get_base_url, is_cached.
  destruct (negb _); [done|]. cbn beta. by rewrite bool_decide_true.
Qed.

Lemma resolve_offline env py_repr st (binary_id : string) :
  Py.truthy_opt (base_url st) = false ->
  _resolve_binary_id env py_repr binary_id st = (st, binary_id).
Proof.
  intros Hbase. unfold _resolve_binary_id, bind, get_base_url. by rewrite Hbase.
Qed.

Lemma keeps_list_binaries env py_repr : keeps base_url (list_binaries env py_repr).
Proof.
  unfold list_binaries. apply keeps_bind.
  - apply keeps_live_roster, settled_base_url.
  - intros servers. by destruct (nonempty servers).
Qed.

Lemma keeps_resolve_binary_id env py_repr binary_id :
  keeps base_url (_resolve_binary_id env py_repr binary_id).
Proof.
  unfold _resolve_binary_id.
  apply keeps_bind; [apply keeps_get_base_url|]. intros base.
  destruct (negb _); [apply keeps_ret|].
  apply keeps_bind; [by intros ?|]. intros [|]; [apply keeps_ret|].
  apply keeps_bind; [apply keeps_list_binaries|]. intros servers.
  repeat keeps_step.
Qed.

(** C8 (as amended). The cache is keyed by backend id, not by the
    identifier the caller gave. After a first [_resolve_binary_id]: if the
    identifier is a key of the cache (it was one before, or the roster
    holds a backend with exactly that id), a second call returns the
    identifier itself and changes nothing, so no roster is fetched; it
    agrees with the first call whenever the first call returned the
    identifier. If a base URL is configured and the identifier is not a
    key of the cache (it was resolved by name or by the single-backend
    heuristic, or not at all), the second call runs [list_binaries] again.
    Without a base URL both calls return the identifier and do nothing. *)
Theorem resolve_twice env py_repr st st1 (binary_id r1 : string) :
  _resolve_binary_id env py_repr binary_id st = (st1, r1) ->
  (is_Some (available_binaries st1 !! binary_id) ->
   _resolve_binary_id env py_repr binary_id st1 = (st1, binary_id))
  /\ (Py.truthy_opt (base_url st) = true ->
      available_binaries st1 !! binary_id = None ->
      (_resolve_binary_id env py_repr binary_id st1).1 = (list_binaries env py_repr st1).1)
  /\ (Py.truthy_opt (base_url st) = false ->
      st1 = st /\ r1 = binary_id
      /\ _resolve_binary_id env py_repr binary_id st1 = (st1, binary_id)).
Proof.
  intros Hfirst. split; [|split].
  - apply resolve_cached.
  - intros Hbase Hmiss.
    pose proof (keeps_resolve_binary_id env py_repr binary_id st) as Hkeep.
    rewrite Hfirst in Hkeep. simpl in Hkeep.
    unfold _resolve_binary_id, bind, get_base_url, is_cached.
    rewrite Hkeep, Hbase. cbn beta iota delta [negb]. rewrite Hmiss.
    rewrite bool_decide_false by by intros [? ?].
    destruct (list_binaries env py_repr st1) as [st2 servers]. simpl.
    destruct (nonempty servers); [|done].
    destruct (find _ servers); [done|].
    destruct (_ && _); [done|]. by destruct (bool_decide _).
  - intros Hbase. rewrite resolve_offline in Hfirst by done.
    injection Hfirst as <- <-. by rewrite resolve_offline.
Qed.

Lemma resolve_twice_witness :
  let env := roster_env (fun _ => JArr [backend "srv1" "libimp.so"]) in
  let st1 := (_resolve_binary_id env repr_unused "srv1" bridge_client).1 in
  _resolve_binary_id env repr_unused "srv1" st1 = (st1, "srv1").
Proof.
  cbv zeta.
  destruct (resolve_twice (roster_env (fun _ => JArr [backend "srv1" "libimp.so"]))
              repr_unused bridge_client
              (_resolve_binary_id (roster_env (fun _ => JArr [backend "srv1" "libimp.so"]))
                                  repr_unused "srv1" bridge_client).1
              "srv1" "srv1") as [H _].
  - vm_compute. reflexivity.
  - apply H. vm_compute. eexists. reflexivity.
Defined.

(** C8 fails as stated: with one backend [srv1] the identifier [foo]
    resolves to [srv1], which is what gets cached; the second call does
    not find [foo] in the cache, posts to the bridge again and, the
    roster having changed, returns another id. *)
Lemma resolve_twice_refetch_counterexample :
  let env := roster_env (fun n => match n with
                                  | O => JArr [backend "srv1" "libimp.so"]
                                  | _ => JArr [backend "srv2" "libimp.so"]
                                  end) in
  let first := _resolve_binary_id env repr_unused "foo" bridge_client in
  let second := _resolve_binary_id env repr_unused "foo" first.1 in
  first.2 = "srv1" /\ second.2 = "srv2"
  /\ length (requests first.1) = 1%nat /\ length (requests second.1) = 2%nat.
Proof. cbv zeta. repeat split; by vm_compute. Qed.

(** ** The orchestrator *)

Lemma startswith_head s c p : PyStr.startswith s (String c p) = true -> exists r, s = String c r.
Proof.
  unfold PyStr.startswith. destruct s as [|c' r]; simpl; [done|].
  destruct (ascii_dec c c') as [->|]; [by eexists|done].
Qed.

(** A direct base URL is never the empty string. *)
Lemma direct_base_truthy binary_id direct_base :
  _direct_base_from_binary_id binary_id = Some direct_base ->
  Py.truthy_opt (Some direct_base) = true.
Proof.
  unfold _direct_base_from_binary_id.
  destruct (PyStr.startswith (PyStr.strip binary_id) "http://") eqn:Hh;
    [|destruct (PyStr.startswith (PyStr.strip binary_id) "https://") eqn:Hhs]; simpl.
  - apply startswith_head in Hh as [r ->]. by intros [= <-].
  - apply startswith_head in Hhs as [r ->]. by intros [= <-].
  - destruct (if PyStr.startswith _ "port_" then _ else _) as [p|]; [|done].
    destruct (p =? 0); [done|]. by intros [= <-].
Qed.






(** C2 (as amended). When a direct base URL is derived from the binary
    identifier and the direct GET yields an object whose code (the first
    truthy of [decompiled], [decompiled_code], [code], [text]) is a
    non-blank string, [decompile_function] returns that string after this
    one request and without starting a wait. The reader fields are those
    left by the [_ensure_sse_background] call made on entry: they are
    unchanged when no base URL is configured or the reader thread is
    alive, and otherwise the reader has been started. *)
Theorem decompile_direct_hit env py_repr st binary_id function_name
        direct_base status raw obj code :
  _direct_base_from_binary_id binary_id = Some direct_base ->
  env_http env (length (requests st))
           (GET (direct_base +:+ "/decompile") [("name", function_name)] 10)
  = Reply status raw (Some obj) ->
  direct_code obj = Some code ->
  let st' := (decompile_function env py_repr binary_id function_name st).1 in
  decompile_function env py_repr binary_id function_name st
  = (with_requests
       (requests st ++ [GET (direct_base +:+ "/decompile") [("name", function_name)] 10])
       (_ensure_sse_background st).1,
     Some code)
  /\ waits_begun st' = waits_begun st
  /\ (Py.truthy_opt (base_url st) = false \/ from_option is_alive false (_sse_thread st) = true ->
      _sse_thread st' = _sse_thread st /\ _sse_running st' = _sse_running st)
  /\ (Py.truthy_opt (base_url st) = true ->
      from_option is_alive false (_sse_thread st) = false ->
      _sse_thread st' = Some (BNMCPSSE true) /\ _sse_running st' = true).
Proof.
  intros Hdirect Hreply Hcode st'.
  assert (decompile_function env py_repr binary_id function_name st
          = (with_requests
               (requests st ++ [GET (direct_base +:+ "/decompile") [("name", function_name)] 10])
               (_ensure_sse_background st).1,
             Some code)) as Hcall.
  { unfold decompile_function, bind at 1.
    destruct (ensure_sse_background_frame st) as (_ & _ & _ & _ & Hreq & _).
    destruct (_ensure_sse_background st) as [st0 []]. simpl in Hreq. simpl fst.
    unfold bind, or_else, when, get_base_url, bind.
    rewrite Hdirect, (direct_base_truthy _ _ Hdirect). simpl.
    unfold decompile_direct, or_else, bind, _http_get_json_full, bind, http, ret.
    rewrite Hreq, Hreply, Hcode. done. }
  subst st'. rewrite Hcall. simpl fst. split; [done|].
  change (waits_begun (with_requests ?r ?s)) with (waits_begun s).
  change (_sse_thread (with_requests ?r ?s)) with (_sse_thread s).
  change (_sse_running (with_requests ?r ?s)) with (_sse_running s).
  split; [by destruct (ensure_sse_background_frame st) as (_&_&_&_&_&_&->)|].
  unfold _ensure_sse_background. split.
  - intros [Hbase|Halive].
    + by rewrite Hbase.
    + destruct (negb _); [done|]. by rewrite Halive.
  - intros Hbase Hdead. by rewrite Hbase, Hdead.
Qed.

Lemma decompile_direct_hit_witness :
  let r := decompile_function direct_env repr_unused "port_9009" "f" offline_client in
  r.2 = Some "int f(){return 0;}"
  /\ _sse_thread r.1 = None /\ _sse_running r.1 = false.
Proof.
  cbv zeta.
  destruct (decompile_direct_hit direct_env repr_unused offline_client "port_9009" "f"
              "http://localhost:9009" 200 "{...}"
              (JObj [("decompiled_code", JStr "int f(){return 0;}")])
              "int f(){return 0;}") as (Hcall & _ & Hsame & _);
    [reflexivity | reflexivity | reflexivity |].
  rewrite Hcall. split; [reflexivity|]. apply Hsame. left. reflexivity.
Defined.

(** C2 fails as stated: with a base URL configured and no reader yet,
    the direct path returns the code, but the call has started the
    reader on entry. *)
Lemma decompile_starts_reader_counterexample :
  let r := decompile_function direct_env repr_unused "port_9009" "f" bridge_client in
  _direct_base_from_binary_id "port_9009" = Some "http://localhost:9009"
  /\ r.2 = Some "int f(){return 0;}"
  /\ _sse_thread bridge_client = None /\ _sse_running bridge_client = false
  /\ _sse_thread r.1 = Some (BNMCPSSE true) /\ _sse_running r.1 = true.
Proof. cbv zeta. repeat split; by vm_compute. Qed.

(** * Further properties of the client *)

(** ** Bounded attempts *)

Lemma spends_ret {A} r w u (a : A) : spends r w u (ret a).
Proof.
  intros st. simpl. split; [exists []; rewrite app_nil_r; split; [done|simpl; lia]|]. lia.
Qed.

Lemma spends_weaken {A} r w u r' w' u' (m : M A) :
  spends r w u m -> (r <= r')%nat -> (w <= w')%nat -> (u <= u')%nat ->
  spends r' w' u' m.
Proof.
  intros Hm Hr Hw Hu st. destruct (Hm st) as ((new & Hnew & Hlen) & Hwaits & Huuids).
  split; [exists new; split; [done|lia]|]. lia.
Qed.

Lemma spends_bind {A B} r1 w1 u1 r w u (m : M A) (k : A -> M B) :
  spends r1 w1 u1 m ->
  (forall a, spends (r - r1) (w - w1) (u - u1) (k a)) ->
  (r1 <= r)%nat -> (w1 <= w)%nat -> (u1 <= u)%nat ->
  spends r w u (bind m k).
Proof.
  intros Hm Hk Hr Hw Hu st. unfold bind.
  destruct (Hm st) as ((new1 & Hnew1 & Hlen1) & Hwaits1 & Huuids1).
  destruct (m st) as [st1 a]. simpl in *.
  destruct (Hk a st1) as ((new2 & Hnew2 & Hlen2) & Hwaits2 & Huuids2).
  split; [|lia].
  exists (new1 ++ new2). rewrite Hnew2, Hnew1, app_assoc, length_app. split; [done|lia].
Qed.

Lemma spends_if {A} r1 w1 u1 r2 w2 u2 (b : bool) (m1 m2 : M A) :
  spends r1 w1 u1 m1 -> spends r2 w2 u2 m2 ->
  spends (Nat.max r1 r2) (Nat.max w1 w2) (Nat.max u1 u2) (if b then m1 else m2).
Proof. intros H1 H2. destruct b; eapply spends_weaken; eauto; lia. Qed.

Lemma spends_ret0 {A} (a : A) : spends 0 0 0 (ret a).
Proof. apply spends_ret. Qed.

Lemma spends_nothing {A} (m : M A) :
  (forall st, requests (m st).1 = requests st
              /\ waits_begun (m st).1 = waits_begun st
              /\ uuids_drawn (m st).1 = uuids_drawn st) ->
  spends 0 0 0 m.
Proof.
  intros Hm st. destruct (Hm st) as (-> & -> & ->).
  split; [exists []; by rewrite app_nil_r|lia].
Qed.

Lemma spends_get_base_url : spends 0 0 0 get_base_url.
Proof. by apply spends_nothing. Qed.

Lemma spends_is_cached binary_id : spends 0 0 0 (is_cached binary_id).
Proof. by apply spends_nothing. Qed.

Lemma spends_set_binaries f : spends 0 0 0 (set_binaries f).
Proof. by apply spends_nothing. Qed.

Lemma spends_ensure_sse_background : spends 0 0 0 _ensure_sse_background.
Proof.
  apply spends_nothing. intros st. unfold _ensure_sse_background.
  destruct (negb _); [done|]. by destruct (from_option _ _ _).
Qed.

Lemma spends_http env req : spends 1 0 0 (http env req).
Proof. intros st. simpl. split; [by exists [req]|]. lia. Qed.

Lemma spends_uuid4 env : spends 0 0 1 (uuid4 env).
Proof. intros st. simpl. split; [exists []; by rewrite app_nil_r|]. lia. Qed.

Lemma spends_begin_wait env : spends 0 1 0 (begin_wait env).
Proof. intros st. simpl. split; [exists []; by rewrite app_nil_r|]. lia. Qed.

Lemma deliver_bookkeeping arrivals st :
  requests (deliver arrivals st) = requests st
  /\ waits_begun (deliver arrivals st) = waits_begun st
  /\ uuids_drawn (deliver arrivals st) = uuids_drawn st.
Proof.
  unfold deliver. destruct (reader_active st); [|done].
  revert st. induction arrivals as [|ev evs IH]; intros st; simpl; [done|].
  destruct (IH (_enqueue_event ev.1 ev.2 st)) as (-> & -> & ->). done.
Qed.

Lemma spends_wait_rounds m end_ last_checked rs :
  spends 0 0 0 (wait_rounds m end_ last_checked rs).
Proof.
  revert last_checked. induction rs as [|r rs IH]; intros lc st; simpl.
  { split; [exists []; by rewrite app_nil_r|lia]. }
  destruct (r_enter r <? end_); [|simpl; split; [exists []; by rewrite app_nil_r|lia]].
  destruct (deliver_bookkeeping (r_arrivals r) st) as (Hr & Hw & Hu).
  destruct (scan m lc _); simpl.
  - rewrite Hr, Hw, Hu. split; [exists []; by rewrite app_nil_r|]. lia.
  - specialize (IH (r_now r) (deliver (r_arrivals r) st)).
    by rewrite Hr, Hw, Hu in IH.
Qed.

Create HintDb spends.

#[export] Hint Resolve spends_ret0 spends_get_base_url spends_is_cached spends_set_binaries
  spends_ensure_sse_background spends_http spends_uuid4 spends_begin_wait
  spends_wait_rounds spends_if : spends.

(** Steps of a proof of a bound on what an operation spends. *)
Ltac spends_leaf := eapply spends_weaken; [solve [eauto with spends] | lia ..].

Ltac spends_step :=
  first
    [ apply spends_ret
    | eapply spends_bind; [solve [eauto with spends] | intros ? | lia | lia | lia]
    | match goal with
      | |- spends _ _ _ (if ?b then _ else _) => destruct b
      | |- spends _ _ _ (match ?x with _ => _ end) => destruct x
      | |- spends _ _ _ (let '(_, _) := ?x in _) => destruct x
      end
    | spends_leaf ].

Ltac spends_all := repeat spends_step.

Lemma spends_or_else {A} r1 w1 u1 r w u (m1 m2 : M (option A)) :
  spends r1 w1 u1 m1 -> spends (r - r1) (w - w1) (u - u1) m2 ->
  (r1 <= r)%nat -> (w1 <= w)%nat -> (u1 <= u)%nat ->
  spends r w u (or_else m1 m2).
Proof.
  intros H1 H2 Hr Hw Hu. unfold or_else. eapply spends_bind; [exact H1| |done..].
  intros [a|]; [apply spends_ret|done].
Qed.

Lemma spends_when {A} r w u (cond : bool) (block : M (option A)) :
  spends r w u block -> spends r w u (when cond block).
Proof. intros H. destruct cond; [done|apply spends_ret]. Qed.

Lemma spends_first_of {A B} r w u (body : B -> M (option A)) l :
  (forall x, spends r w u (body x)) ->
  spends (length l * r) (length l * w) (length l * u) (first_of body l).
Proof.
  intros Hbody. induction l as [|x l IH]; simpl first_of; [apply spends_ret|].
  eapply spends_or_else; [apply Hbody| |simpl; lia..].
  eapply spends_weaken; [exact IH|simpl; lia..].
Qed.

Section Spends.
Context (env : Env) (py_repr : json -> string).

Lemma spends_sse_wait_for expect_method expect_params keys hint timeout :
  spends 0 1 0 (_sse_wait_for env expect_method expect_params keys hint timeout).
Proof. unfold _sse_wait_for. spends_all. Qed.

Lemma spends_sse_wait_for_id req_id keys hint timeout :
  spends 0 1 0 (_sse_wait_for_id env req_id keys hint timeout).
Proof. unfold _sse_wait_for_id. spends_all. Qed.

Lemma spends_http_get_json path params : spends 1 0 0 (_http_get_json env path params).
Proof. unfold _http_get_json. spends_all. Qed.

Lemma spends_http_get_text path params : spends 1 0 0 (_http_get_text env path params).
Proof. unfold _http_get_text. spends_all. Qed.

Lemma spends_http_get_json_full url query : spends 1 0 0 (_http_get_json_full env url query).
Proof. unfold _http_get_json_full. spends_all. Qed.

Lemma spends_http_post_json_full url body : spends 1 0 0 (_http_post_json_full env url body).
Proof. unfold _http_post_json_full. spends_all. Qed.

Lemma spends_bridge_call_jsonrpc method params req_id :
  spends 1 0 0 (_bridge_call_jsonrpc env method params req_id).
Proof. unfold _bridge_call_jsonrpc. spends_all. Qed.

Lemma spends_bridge_try url payloads :
  spends (length payloads) 0 0 (bridge_try env url payloads).
Proof.
  induction payloads as [|body rest IH]; simpl; [apply spends_ret|].
  eapply spends_bind; [apply spends_http| |lia..]. intros resp.
  assert (spends (S (length rest) - 1) (0 - 0) (0 - 0) (bridge_try env url rest))
    by (eapply spends_weaken; [exact IH|lia..]).
  repeat first [ assumption | apply spends_ret
               | match goal with
                 | |- spends _ _ _ (if ?b then _ else _) => destruct b
                 | |- spends _ _ _ (match ?x with _ => _ end) => destruct x
                 end ].
Qed.

Lemma spends_bridge_call method params : spends 5 0 0 (_bridge_call env method params).
Proof.
  unfold _bridge_call. eapply spends_bind; [apply spends_get_base_url| |lia..].
  intros base. destruct (negb _); [apply spends_ret|]. apply (spends_bridge_try _ (bridge_payloads _ _)).
Qed.

End Spends.

Section SpendsOrchestrator.
Context (env : Env) (py_repr : json -> string).

#[local] Hint Resolve spends_sse_wait_for spends_sse_wait_for_id spends_http_get_json
  spends_http_get_text spends_http_get_json_full spends_http_post_json_full
  spends_bridge_call_jsonrpc spends_bridge_call : spends.

Lemma spends_roster_from_bridge methods servers :
  spends (6 * length methods) 0 (length methods)
         (roster_from_bridge env py_repr methods servers).
Proof.
  revert servers. induction methods as [|method rest IH]; intros servers;
    simpl roster_from_bridge; [apply spends_ret|].
  simpl length.
  eapply spends_bind; [apply spends_uuid4|intros req_id|lia..].
  eapply spends_bind; [apply spends_bridge_call_jsonrpc|intros sync|lia..].
  eapply spends_bind; [apply (spends_if 0 0 0 5 0 0); eauto with spends
                      |intros candidate|lia..].
  assert (forall s, spends (6 * S (length rest) - 0 - 1 - Nat.max 0 5) (0 - 0 - 0 - Nat.max 0 0)
                      (S (length rest) - 1 - 0 - Nat.max 0 0)
                      (roster_from_bridge env py_repr rest s)) as Hrest
    by (intros s; eapply spends_weaken; [apply IH|lia..]).
  destruct candidate as [| | | | |[|it items]|]; try apply Hrest.
  destruct (parse_servers _ _ _ _ _) as [servers' ok].
  destruct (ok && nonempty servers'); [apply spends_ret|apply Hrest].
Qed.

Lemma spends_roster_from_sse methods servers :
  spends 0 (length methods) 0 (roster_from_sse env py_repr methods servers).
Proof.
  revert servers. induction methods as [|method rest IH]; intros servers;
    simpl roster_from_sse; [apply spends_ret|].
  simpl length.
  eapply spends_bind; [apply spends_sse_wait_for|intros sse_res|lia..].
  assert (forall s, spends (0 - 0) (S (length rest) - 1) (0 - 0)
                      (roster_from_sse env py_repr rest s)) as Hrest
    by (intros s; eapply spends_weaken; [apply IH|lia..]).
  destruct sse_res as [[| | | | |[|it items]|]|]; try apply Hrest.
  destruct (parse_servers _ _ _ _ _) as [servers' ok].
  destruct (ok && nonempty servers'); [apply spends_ret|apply Hrest].
Qed.

Lemma spends_roster_from_rest endpoints servers :
  spends (length endpoints) 0 0 (roster_from_rest env py_repr endpoints servers).
Proof.
  revert servers. induction endpoints as [|endpoint rest IH]; intros servers;
    simpl roster_from_rest; [apply spends_ret|].
  simpl length.
  eapply spends_bind; [apply spends_http_get_json|intros data|lia..].
  assert (forall s, spends (S (length rest) - 1) (0 - 0) (0 - 0)
                      (roster_from_rest env py_repr rest s)) as Hrest
    by (intros s; eapply spends_weaken; [apply IH|lia..]).
  destruct data as [| | | | |[|it items]|]; try apply Hrest.
  destruct (parse_servers _ _ _ _ _) as [servers' ok].
  destruct ok; [apply spends_ret|apply Hrest].
Qed.

Lemma spends_live_roster : spends 21 3 3 (live_roster env py_repr).
Proof.
  unfold live_roster.
  eapply spends_bind; [apply spends_ensure_sse_background|intros _|lia..].
  eapply spends_bind; [apply spends_get_base_url|intros base|lia..].
  eapply (spends_bind 18 3 3).
  - destruct (Py.truthy_opt base); [|apply spends_ret].
    eapply (spends_bind 18 0 3); [apply (spends_roster_from_bridge list_methods)| |simpl; lia..].
    intros servers. destruct (nonempty servers); [apply spends_ret|].
    eapply spends_weaken; [apply (spends_roster_from_sse list_methods)|simpl; lia..].
  - intros servers. destruct (_ && _); [|apply spends_ret].
    eapply spends_weaken; [apply spends_roster_from_rest|simpl; lia..].
  - lia.
  - lia.
  - lia.
Qed.

Lemma spends_list_binaries : spends 21 3 3 (list_binaries env py_repr).
Proof.
  unfold list_binaries.
  eapply spends_bind; [apply spends_live_roster|intros servers|lia..].
  destruct (nonempty servers); spends_all.
Qed.

Lemma spends_resolve_binary_id binary_id :
  spends 21 3 3 (_resolve_binary_id env py_repr binary_id).
Proof.
  unfold _resolve_binary_id.
  eapply spends_bind; [apply spends_get_base_url|intros base|lia..].
  destruct (negb _); [apply spends_ret|].
  eapply spends_bind; [apply spends_is_cached|intros [|]|lia..]; [apply spends_ret|].
  eapply spends_bind; [apply spends_list_binaries|intros servers|lia..].
  repeat first [ apply spends_ret
               | match goal with
                 | |- spends _ _ _ (if ?b then _ else _) => destruct b
                 | |- spends _ _ _ (match ?x with _ => _ end) => destruct x
                 end ].
Qed.

Lemma spends_decompile_direct direct_base function_name :
  spends 2 0 0 (decompile_direct env direct_base function_name).
Proof.
  unfold decompile_direct.
  eapply (spends_or_else 1 0 0); [spends_all|spends_all|lia..].
Qed.

Lemma spends_decompile_attempt function_name mp :
  spends 6 2 1 (decompile_attempt env py_repr function_name mp).
Proof.
  unfold decompile_attempt. destruct mp as [method params].
  eapply spends_bind; [apply spends_uuid4|intros req_id|lia..].
  eapply (spends_or_else 1 0 0); [spends_all| |lia..].
  eapply (spends_or_else 0 1 0); [spends_all| |lia..].
  eapply (spends_or_else 5 0 0); [spends_all|spends_all|lia..].
Qed.

Lemma spends_decompile_rest binary_id function_name :
  spends 3 0 0 (decompile_rest env binary_id function_name).
Proof.
  unfold decompile_rest.
  eapply spends_weaken; [apply (spends_first_of 1 0 0)|simpl; lia..].
  intros pp. spends_all.
Qed.

Lemma spends_decompile_function binary_id function_name :
  spends 50 11 7 (decompile_function env py_repr binary_id function_name).
Proof.
  unfold decompile_function.
  eapply spends_bind; [apply spends_ensure_sse_background|intros _|lia..].
  eapply spends_bind; [apply spends_get_base_url|intros base|lia..].
  eapply (spends_or_else 2 0 0); [apply spends_when, spends_decompile_direct| |lia..].
  eapply (spends_or_else 45 11 7); [apply spends_when| |lia..].
  - eapply spends_bind; [apply spends_resolve_binary_id|intros resolved_id|lia..].
    eapply spends_weaken;
      [apply (spends_first_of 6 2 1), spends_decompile_attempt|simpl; lia..].
  - apply spends_when. eapply spends_weaken; [apply spends_decompile_rest|lia..].
Qed.

Lemma spends_functions_direct direct_base :
  spends 1 0 0 (functions_direct env py_repr direct_base).
Proof. unfold functions_direct. spends_all. Qed.

Lemma spends_functions_attempt resolved_id search method :
  spends 1 1 1 (functions_attempt env py_repr resolved_id search method).
Proof.
  unfold functions_attempt.
  eapply spends_bind; [apply spends_uuid4|intros req_id|lia..].
  eapply (spends_or_else 1 0 0); [spends_all|spends_all|lia..].
Qed.

Lemma spends_functions_generic resolved_id search methods res :
  spends (5 * length methods) 0 0
         (functions_generic env resolved_id search methods res).
Proof.
  revert res. induction methods as [|method rest IH]; intros res;
    simpl functions_generic; [apply spends_ret|].
  simpl length.
  eapply spends_bind; [apply spends_bridge_call|intros res'|lia..].
  destruct (Py.truthy res'); [apply spends_ret|].
  eapply spends_weaken; [apply IH|lia..].
Qed.

Lemma spends_functions_bridge binary_id search :
  spends 45 11 7 (functions_bridge env py_repr binary_id search).
Proof.
  unfold functions_bridge.
  eapply spends_bind; [apply spends_resolve_binary_id|intros resolved_id|lia..].
  eapply (spends_or_else 4 4 4).
  - eapply spends_weaken;
      [apply (spends_first_of 1 1 1), spends_functions_attempt|simpl; lia..].
  - eapply (spends_or_else 20 0 0).
    + eapply spends_bind;
        [apply (spends_functions_generic _ _ function_methods)|intros res|simpl; lia..].
      apply spends_ret.
    + eapply spends_weaken; [apply (spends_first_of 0 1 0)|simpl; lia..].
      intros ev_method. spends_all.
    + lia.
    + lia.
    + lia.
  - lia.
  - lia.
  - lia.
Qed.

Lemma spends_functions_rest binary_id search :
  spends 2 0 0 (functions_rest env py_repr binary_id search).
Proof.
  unfold functions_rest.
  eapply spends_weaken; [apply (spends_first_of 1 0 0)|simpl; lia..].
  intros path. spends_all.
Qed.

Lemma spends_list_functions binary_id search :
  spends 48 11 7 (list_functions env py_repr binary_id search).
Proof.
  unfold list_functions.
  eapply spends_bind; [apply spends_get_base_url|intros base|lia..].
  eapply (spends_bind 48 11 7); [|intros r; apply spends_ret|lia..].
  eapply (spends_or_else 1 0 0); [apply spends_when, spends_functions_direct| |lia..].
  eapply (spends_or_else 45 11 7); [apply spends_when, spends_functions_bridge| |lia..].
  apply spends_when. eapply spends_weaken; [apply spends_functions_rest|lia..].
Qed.

End SpendsOrchestrator.

(** Bounded attempts. Every public operation makes a bounded number of
    attempts, whatever the bridge answers: [list_binaries] sends at most
    21 requests and runs at most 3 waits, [decompile_function] at most 50
    requests and 11 waits, [list_functions] at most 48 requests and 11
    waits; each draws a bounded number of request ids and only appends to
    the log of requests. A bridge that answers nothing makes
    [list_binaries] and [decompile_function] reach their bounds. *)
Theorem bounded_attempts env py_repr :
  spends 21 3 3 (list_binaries env py_repr)
  /\ (forall binary_id function_name,
         spends 50 11 7 (decompile_function env py_repr binary_id function_name))
  /\ (forall binary_id search,
         spends 48 11 7 (list_functions env py_repr binary_id search))
  /\ (let st := (list_binaries silent_env repr_unused bridge_client).1 in
      length (requests st) = 21%nat /\ waits_begun st = 3%nat)
  /\ (let st := (decompile_function silent_env repr_unused "port_9009" "f" bridge_client).1 in
      length (requests st) = 50%nat /\ waits_begun st = 11%nat).
Proof.
  split; [apply spends_list_binaries|].
  split; [apply spends_decompile_function|].
  split; [apply spends_list_functions|].
  split; by vm_compute.
Qed.

(** ** Invariants of the client *)

Lemma preserves_ret {A} (I : Client -> Prop) (a : A) : preserves I (ret a).
Proof. by intros st. Qed.

Lemma preserves_bind {A B} (I : Client -> Prop) (m : M A) (k : A -> M B) :
  preserves I m -> (forall a, preserves I (k a)) -> preserves I (bind m k).
Proof.
  intros Hm Hk st HI. unfold bind. specialize (Hm st HI).
  destruct (m st) as [st' a]. by apply Hk.
Qed.

Lemma preserves_or_else {A} (I : Client -> Prop) (m1 m2 : M (option A)) :
  preserves I m1 -> preserves I m2 -> preserves I (or_else m1 m2).
Proof.
  intros H1 H2. apply preserves_bind; [done|]. intros [a|]; [apply preserves_ret|done].
Qed.

Lemma preserves_first_of {A B} (I : Client -> Prop) (body : B -> M (option A)) l :
  (forall x, preserves I (body x)) -> preserves I (first_of body l).
Proof.
  intros Hbody. induction l as [|x l IH]; simpl; [apply preserves_ret|].
  by apply preserves_or_else.
Qed.

Lemma preserves_when {A} (I : Client -> Prop) (cond : bool) (block : M (option A)) :
  preserves I block -> preserves I (when cond block).
Proof. intros H. destruct cond; [done|apply preserves_ret]. Qed.

Create HintDb preserves.

(** Steps of a proof that an operation preserves an invariant. *)
Ltac preserves_step :=
  first
    [ apply preserves_ret
    | solve [eauto with preserves]
    | apply preserves_bind; [|intros ?]
    | apply preserves_or_else
    | apply preserves_when
    | apply preserves_first_of; intros ?
    | match goal with
      | |- preserves _ (if ?b then _ else _) => destruct b
      | |- preserves _ (match ?x with _ => _ end) => destruct x
      | |- preserves _ (let '(_, _) := ?x in _) => destruct x
      end ].

Section Preserves.
Context (env : Env) (py_repr : json -> string).
Context (I : Client -> Prop) (HI : durable I).

Lemma preserves_get_base_url : preserves I get_base_url.
Proof. by intros st. Qed.

Lemma preserves_is_cached binary_id : preserves I (is_cached binary_id).
Proof. by intros st. Qed.

Lemma preserves_set_binaries f : preserves I (set_binaries f).
Proof. intros st Hst. by apply HI. Qed.

Lemma preserves_ensure_sse_background : preserves I _ensure_sse_background.
Proof.
  intros st Hst. unfold _ensure_sse_background.
  destruct (negb _); [done|]. destruct (from_option _ _ _); [done|]. by apply HI.
Qed.

Lemma preserves_http req : preserves I (http env req).
Proof. intros st Hst. by apply HI. Qed.

Lemma preserves_uuid4 : preserves I (uuid4 env).
Proof. intros st Hst. by apply HI. Qed.

Lemma preserves_begin_wait : preserves I (begin_wait env).
Proof. intros st Hst. by apply HI. Qed.

Lemma deliver_preserves arrivals st : I st -> I (deliver arrivals st).
Proof.
  unfold deliver. destruct (reader_active st); [|done].
  revert st. induction arrivals as [|ev evs IH]; intros st Hst; simpl; [done|].
  apply IH. by apply HI.
Qed.

Lemma preserves_wait_rounds m end_ last_checked rs :
  preserves I (wait_rounds m end_ last_checked rs).
Proof.
  revert last_checked. induction rs as [|r rs IH]; intros lc st Hst; simpl; [done|].
  destruct (r_enter r <? end_); [|done].
  destruct (scan m lc _); simpl; [by apply deliver_preserves|].
  by apply IH, deliver_preserves.
Qed.

#[local] Hint Resolve preserves_get_base_url preserves_is_cached preserves_set_binaries
  preserves_ensure_sse_background preserves_http preserves_uuid4 preserves_begin_wait
  preserves_wait_rounds : preserves.

Lemma preserves_sse_wait_for expect_method expect_params keys hint timeout :
  preserves I (_sse_wait_for env expect_method expect_params keys hint timeout).
Proof. unfold _sse_wait_for. repeat preserves_step. Qed.

Lemma preserves_sse_wait_for_id req_id keys hint timeout :
  preserves I (_sse_wait_for_id env req_id keys hint timeout).
Proof. unfold _sse_wait_for_id. repeat preserves_step. Qed.

Lemma preserves_http_get_json path params : preserves I (_http_get_json env path params).
Proof. unfold _http_get_json. repeat preserves_step. Qed.

Lemma preserves_http_get_text path params : preserves I (_http_get_text env path params).
Proof. unfold _http_get_text. repeat preserves_step. Qed.

Lemma preserves_http_get_json_full url query :
  preserves I (_http_get_json_full env url query).
Proof. unfold _http_get_json_full. repeat preserves_step. Qed.

Lemma preserves_http_post_json_full url body :
  preserves I (_http_post_json_full env url body).
Proof. unfold _http_post_json_full. repeat preserves_step. Qed.

Lemma preserves_bridge_call_jsonrpc method params req_id :
  preserves I (_bridge_call_jsonrpc env method params req_id).
Proof. unfold _bridge_call_jsonrpc. repeat preserves_step. Qed.

Lemma preserves_bridge_try url payloads : preserves I (bridge_try env url payloads).
Proof.
  induction payloads as [|body rest IH]; simpl; [apply preserves_ret|].
  apply preserves_bind; [apply preserves_http|]. intros resp.
  repeat first [ assumption | preserves_step ].
Qed.

Lemma preserves_bridge_call method params : preserves I (_bridge_call env method params).
Proof.
  unfold _bridge_call. apply preserves_bind; [apply preserves_get_base_url|].
  intros base. destruct (negb _); [apply preserves_ret|apply preserves_bridge_try].
Qed.

#[local] Hint Resolve preserves_sse_wait_for preserves_sse_wait_for_id
  preserves_http_get_json preserves_http_get_text preserves_http_get_json_full
  preserves_http_post_json_full preserves_bridge_call_jsonrpc preserves_bridge_call
  : preserves.

Lemma preserves_roster_from_bridge methods servers :
  preserves I (roster_from_bridge env py_repr methods servers).
Proof.
  revert servers. induction methods as [|method rest IH]; intros servers;
    simpl roster_from_bridge; [apply preserves_ret|].
  apply preserves_bind; [apply preserves_uuid4|intros req_id].
  apply preserves_bind; [apply preserves_bridge_call_jsonrpc|intros sync].
  apply preserves_bind; [destruct (Py.truthy sync); eauto with preserves
                        |intros candidate].
  destruct candidate as [| | | | |[|it items]|]; try apply IH.
  destruct (parse_servers _ _ _ _ _) as [servers' ok].
  destruct (ok && nonempty servers'); [apply preserves_ret|apply IH].
Qed.

Lemma preserves_roster_from_sse methods servers :
  preserves I (roster_from_sse env py_repr methods servers).
Proof.
  revert servers. induction methods as [|method rest IH]; intros servers;
    simpl roster_from_sse; [apply preserves_ret|].
  apply preserves_bind; [apply preserves_sse_wait_for|intros sse_res].
  destruct sse_res as [[| | | | |[|it items]|]|]; try apply IH.
  destruct (parse_servers _ _ _ _ _) as [servers' ok].
  destruct (ok && nonempty servers'); [apply preserves_ret|apply IH].
Qed.

Lemma preserves_roster_from_rest endpoints servers :
  preserves I (roster_from_rest env py_repr endpoints servers).
Proof.
  revert servers. induction endpoints as [|endpoint rest IH]; intros servers;
    simpl roster_from_rest; [apply preserves_ret|].
  apply preserves_bind; [apply preserves_http_get_json|intros data].
  destruct data as [| | | | |[|it items]|]; try apply IH.
  destruct (parse_servers _ _ _ _ _) as [servers' ok].
  destruct ok; [apply preserves_ret|apply IH].
Qed.

#[local] Hint Resolve preserves_roster_from_bridge preserves_roster_from_sse
  preserves_roster_from_rest : preserves.

Lemma preserves_live_roster : preserves I (live_roster env py_repr).
Proof.
  unfold live_roster.
  apply preserves_bind; [apply preserves_ensure_sse_background|intros _].
  apply preserves_bind; [apply preserves_get_base_url|intros base].
  apply preserves_bind.
  - destruct (Py.truthy_opt base); [|apply preserves_ret].
    apply preserves_bind; [apply preserves_roster_from_bridge|intros servers].
    destruct (nonempty servers); [apply preserves_ret|apply preserves_roster_from_sse].
  - intros servers. destruct (_ && _); [apply preserves_roster_from_rest|apply preserves_ret].
Qed.

Lemma preserves_list_binaries : preserves I (list_binaries env py_repr).
Proof.
  unfold list_binaries. apply preserves_bind; [apply preserves_live_roster|].
  intros servers. destruct (nonempty servers).
  - apply preserves_bind; [apply preserves_set_binaries|intros _; apply preserves_ret].
  - apply preserves_bind; [apply preserves_set_binaries|intros _; apply preserves_ret].
Qed.

Lemma preserves_resolve_binary_id binary_id :
  preserves I (_resolve_binary_id env py_repr binary_id).
Proof.
  unfold _resolve_binary_id.
  apply preserves_bind; [apply preserves_get_base_url|intros base].
  destruct (negb _); [apply preserves_ret|].
  apply preserves_bind; [apply preserves_is_cached|intros [|]]; [apply preserves_ret|].
  apply preserves_bind; [apply preserves_list_binaries|intros servers].
  repeat first [ apply preserves_ret
               | match goal with
                 | |- preserves _ (if ?b then _ else _) => destruct b
                 | |- preserves _ (match ?x with _ => _ end) => destruct x
                 end ].
Qed.

Lemma preserves_decompile_function binary_id function_name :
  preserves I (decompile_function env py_repr binary_id function_name).
Proof.
  unfold decompile_function.
  apply preserves_bind; [apply preserves_ensure_sse_background|intros _].
  apply preserves_bind; [apply preserves_get_base_url|intros base].
  apply preserves_or_else; [|apply preserves_or_else].
  - apply preserves_when. unfold decompile_direct. repeat preserves_step.
  - apply preserves_when.
    apply preserves_bind; [apply preserves_resolve_binary_id|intros resolved_id].
    apply preserves_first_of. intros [method params]. unfold decompile_attempt.
    repeat preserves_step.
  - apply preserves_when. unfold decompile_rest. repeat preserves_step.
Qed.

Lemma preserves_functions_generic resolved_id search methods res :
  preserves I (functions_generic env resolved_id search methods res).
Proof.
  revert res. induction methods as [|method rest IH]; intros res;
    simpl functions_generic; [apply preserves_ret|].
  apply preserves_bind; [apply preserves_bridge_call|intros res'].
  destruct (Py.truthy res'); [apply preserves_ret|apply IH].
Qed.

Lemma preserves_list_functions binary_id search :
  preserves I (list_functions env py_repr binary_id search).
Proof.
  unfold list_functions.
  apply preserves_bind; [apply preserves_get_base_url|intros base].
  apply preserves_bind; [|intros r; apply preserves_ret].
  apply preserves_or_else; [|apply preserves_or_else].
  - apply preserves_when. unfold functions_direct. repeat preserves_step.
  - apply preserves_when. unfold functions_bridge.
    apply preserves_bind; [apply preserves_resolve_binary_id|intros resolved_id].
    apply preserves_or_else; [|apply preserves_or_else].
    + apply preserves_first_of. intros method. unfold functions_attempt.
      repeat preserves_step.
    + apply preserves_bind; [apply preserves_functions_generic|intros res].
      apply preserves_ret.
    + apply preserves_first_of. intros ev_method. repeat preserves_step.
  - apply preserves_when. unfold functions_rest. repeat preserves_step.
Qed.

End Preserves.

Lemma durable_buffer_bounded : durable buffer_bounded.
Proof.
  unfold buffer_bounded. repeat split; try done.
  intros now obj st Hst. by apply deque_append_length.
Qed.

(** The bound of the event buffer is an invariant of the whole client:
    a new client satisfies it and every public operation, with all the
    arrivals the reader delivers during its waits, keeps it. *)
Theorem buffer_bound_kept env py_repr :
  (forall environ cmd url, buffer_bounded (__init__ environ cmd url))
  /\ preserves buffer_bounded (list_binaries env py_repr)
  /\ (forall binary_id function_name,
         preserves buffer_bounded (decompile_function env py_repr binary_id function_name))
  /\ (forall binary_id search,
         preserves buffer_bounded (list_functions env py_repr binary_id search))
  /\ (forall expect_method expect_params keys hint timeout,
         preserves buffer_bounded
                   (_sse_wait_for env expect_method expect_params keys hint timeout))
  /\ (forall req_id keys hint timeout,
         preserves buffer_bounded (_sse_wait_for_id env req_id keys hint timeout)).
Proof.
  split; [intros; unfold buffer_bounded, SSE_MAXLEN; simpl; lia|].
  split; [apply preserves_list_binaries, durable_buffer_bounded|].
  split; [intros; apply preserves_decompile_function, durable_buffer_bounded|].
  split; [intros; apply preserves_list_functions, durable_buffer_bounded|].
  split; intros.
  - apply preserves_sse_wait_for, durable_buffer_bounded.
  - apply preserves_sse_wait_for_id, durable_buffer_bounded.
Qed.

(** The configuration is fixed at construction: no public operation
    changes [base_url] or [mcp_command]. *)
Theorem configuration_fixed env py_repr st :
  let same st' := base_url st' = base_url st /\ mcp_command st' = mcp_command st in
  same (list_binaries env py_repr st).1
  /\ (forall binary_id, same (_resolve_binary_id env py_repr binary_id st).1)
  /\ (forall binary_id function_name,
         same (decompile_function env py_repr binary_id function_name st).1)
  /\ (forall binary_id search, same (list_functions env py_repr binary_id search st).1).
Proof.
  intros same.
  assert (durable same) as Hsame
    by (unfold durable, same; repeat split; intros; simpl; tauto).
  assert (same st) as Hst by done.
  split; [by apply preserves_list_binaries|].
  split; [intros; by apply preserves_resolve_binary_id|].
  split; intros; [by apply preserves_decompile_function|by apply preserves_list_functions].
Qed.

(** A wait only touches the Event Bus: it sends no request, draws no
    request id and leaves the roster cache and the configuration as they
    were; it is counted as one wait. *)
Theorem waits_touch_only_the_bus env st :
  (forall expect_method expect_params keys hint timeout,
      let st' := (_sse_wait_for env expect_method expect_params keys hint timeout st).1 in
      requests st' = requests st /\ uuids_drawn st' = uuids_drawn st
      /\ available_binaries st' = available_binaries st /\ base_url st' = base_url st
      /\ waits_begun st' = S (waits_begun st))
  /\ (forall req_id keys hint timeout,
         let st' := (_sse_wait_for_id env req_id keys hint timeout st).1 in
         requests st' = requests st /\ uuids_drawn st' = uuids_drawn st
         /\ available_binaries st' = available_binaries st /\ base_url st' = base_url st
         /\ waits_begun st' = S (waits_begun st)).
Proof.
  assert (forall (m : M (option json)),
             spends 0 1 0 m -> keeps available_binaries m -> keeps base_url m ->
             (forall s, (waits_begun s < waits_begun (m s).1)%nat) ->
             requests (m st).1 = requests st /\ uuids_drawn (m st).1 = uuids_drawn st
             /\ available_binaries (m st).1 = available_binaries st
             /\ base_url (m st).1 = base_url st
             /\ waits_begun (m st).1 = S (waits_begun st)) as Hgen.
  { intros m Hspends Hcache Hbase Hcount.
    destruct (Hspends st) as ((new & Hnew & Hlen) & Hwaits & Huuids).
    destruct new; [|simpl in Hlen; lia]. rewrite app_nil_r in Hnew.
    specialize (Hcount st). rewrite Hcache, Hbase. repeat split; [done|lia|lia]. }
  split; intros; apply Hgen.
  - apply spends_sse_wait_for.
  - apply keeps_sse_wait_for, settled_available_binaries.
  - apply keeps_sse_wait_for, settled_base_url.
  - intros s. rewrite sse_wait_for_unfold. cbv zeta.
    match goal with |- context [wait_rounds ?m ?e ?l ?rs ?s1] =>
      destruct (spends_wait_rounds m e l rs s1) as (_ & Hw & _) end.
    simpl in Hw. lia.
  - apply spends_sse_wait_for_id.
  - apply keeps_sse_wait_for_id, settled_available_binaries.
  - apply keeps_sse_wait_for_id, settled_base_url.
  - intros s. rewrite sse_wait_for_id_unfold. cbv zeta.
    match goal with |- context [wait_rounds ?m ?e ?l ?rs ?s1] =>
      destruct (spends_wait_rounds m e l rs s1) as (_ & Hw & _) end.
    simpl in Hw. lia.
Qed.

(** ** What the operations return *)

Lemma yields_ret {A} (P : A -> Prop) (o : option A) :
  (forall a, o = Some a -> P a) -> yields P (ret o).
Proof. intros Ho st a. apply Ho. Qed.

Lemma yields_bind {A B} (P : B -> Prop) (m : M A) (k : A -> M (option B)) :
  (forall a, yields P (k a)) -> yields P (bind m k).
Proof. intros Hk st b. unfold bind. destruct (m st) as [st' a]. apply Hk. Qed.

Lemma yields_or_else {A} (P : A -> Prop) (m1 m2 : M (option A)) :
  yields P m1 -> yields P m2 -> yields P (or_else m1 m2).
Proof.
  intros H1 H2 st a. unfold or_else, bind. specialize (H1 st).
  destruct (m1 st) as [st' [a'|]]; simpl in *.
  - intros [= <-]. by apply H1.
  - apply H2.
Qed.

Lemma yields_when {A} (P : A -> Prop) (cond : bool) (block : M (option A)) :
  yields P block -> yields P (when cond block).
Proof. intros H. destruct cond; [done|]. by intros st a. Qed.

Lemma yields_first_of {A B} (P : A -> Prop) (body : B -> M (option A)) l :
  (forall x, yields P (body x)) -> yields P (first_of body l).
Proof.
  intros Hbody. induction l as [|x l IH]; simpl; [by intros st a|].
  by apply yields_or_else.
Qed.

Lemma direct_code_nonblank obj code : direct_code obj = Some code -> nonblank code = true.
Proof.
  destruct obj as [| | | | | |d]; try done. simpl.
  destruct (Py.or _ _) as [| | | |s| |]; try done.
  destruct (nonblank s) eqn:Hs; [by intros [= <-]|done].
Qed.

Lemma code_of_result_nonblank py_repr res code :
  code_of_result py_repr res = Some code -> nonblank code = true.
Proof.
  destruct res as [| | | |s| |d]; try done; simpl.
  - destruct (nonblank s) eqn:Hs; [by intros [= <-]|done].
  - unfold bridge_dict_code. destruct (Py.truthy _); [|done]. simpl.
    destruct (nonblank (py_str _ _)) eqn:Hs; [by intros [= <-]|done].
Qed.

Lemma code_of_event_nonblank py_repr res code :
  code_of_event py_repr res = Some code -> nonblank code = true.
Proof.
  destruct res as [[| | | |s| |d]|]; try done; simpl.
  - destruct (nonblank s) eqn:Hs; [by intros [= <-]|done].
  - unfold bridge_dict_code. destruct (Py.truthy _); [|done]. simpl.
    destruct (nonblank (py_str _ _)) eqn:Hs; [by intros [= <-]|done].
Qed.

Lemma yields_decompile_function env py_repr binary_id function_name :
  yields (fun c => nonblank c = true)
         (decompile_function env py_repr binary_id function_name).
Proof.
  unfold decompile_function. apply yields_bind. intros _. apply yields_bind. intros base.
  apply yields_or_else; [|apply yields_or_else].
  - apply yields_when. unfold decompile_direct.
    apply yields_or_else; apply yields_bind; intros obj; apply yields_ret,
      direct_code_nonblank.
  - apply yields_when, yields_bind. intros resolved_id.
    apply yields_first_of. intros [method params]. unfold decompile_attempt.
    apply yields_bind. intros req_id.
    repeat apply yields_or_else; apply yields_bind; intros res; apply yields_ret.
    + apply code_of_result_nonblank.
    + apply code_of_event_nonblank.
    + apply code_of_result_nonblank.
    + apply code_of_event_nonblank.
  - apply yields_when. unfold decompile_rest. apply yields_first_of. intros pp.
    apply yields_bind. intros [t|]; apply yields_ret; [|done].
    intros a. destruct (nonblank t) eqn:Ht; [by intros [= <-]|done].
Qed.

(** [decompile_function] returns usable code or nothing: whichever
    transport answered, a string it returns is not empty and not made of
    white space only. *)
Theorem decompile_function_never_blank env py_repr binary_id function_name st st' code :
  decompile_function env py_repr binary_id function_name st = (st', Some code) ->
  nonblank code = true /\ code <> "".
Proof.
  intros Hcall.
  pose proof (yields_decompile_function env py_repr binary_id function_name st code) as Hy.
  rewrite Hcall in Hy. specialize (Hy eq_refl).
  split; [done|]. by intros ->.
Qed.

Lemma decompile_function_never_blank_witness :
  nonblank "int f(){return 0;}" = true /\ "int f(){return 0;}" <> "".
Proof.
  apply (decompile_function_never_blank direct_env repr_unused "port_9009" "f"
           offline_client
           (decompile_function direct_env repr_unused "port_9009" "f" offline_client).1).
  vm_compute. reflexivity.
Defined.

Lemma extract_keys_shape hint keys d v :
  extract_keys hint keys d = Some v -> Py.is_str v || Py.is_list v = true.
Proof.
  induction keys as [|k ks IH]; simpl; [done|].
  destruct (Py.has d k); simpl; [|done].
  destruct (Py.is_str (Py.get d k) || Py.is_list (Py.get d k)) eqn:Hshape; simpl; [|done].
  destruct (negb _); [by intros [= <-]|done].
Qed.

Lemma extract_payload_shape hint keys d v :
  extract_payload hint keys d = Some v -> Py.is_str v || Py.is_list v = true.
Proof.
  unfold extract_payload. destruct (extract_keys hint keys d) as [w|] eqn:H1.
  - intros [= <-]. by eapply extract_keys_shape.
  - destruct (Py.get d "data") as [| | | | | |[|kv d']]; try done. apply extract_keys_shape.
Qed.

Lemma wait_for_event_shape expect_method keys hint obj v :
  wait_for_event expect_method keys hint obj = Some v ->
  Py.is_str v || Py.is_list v = true.
Proof.
  unfold wait_for_event.
  set (payload := match obj with JObj kv => _ | _ => obj end).
  destruct payload as [| | | | |l|p]; try done.
  - destruct (existsb Py.is_str l); [by intros [= <-]|done].
  - destruct (_ && _); [done|]. apply extract_payload_shape.
Qed.

Lemma wait_for_id_event_shape req_id keys hint obj v :
  wait_for_id_event req_id keys hint obj = Some v ->
  Py.is_str v || Py.is_list v = true.
Proof.
  destruct obj as [| | | | | |kv]; try done. unfold wait_for_id_event.
  set (envelope := if _ && _ then _ else None).
  assert (forall w, envelope = Some w -> Py.is_str w || Py.is_list w = true) as Henv.
  { unfold envelope. destruct (_ && _); [|done].
    destruct (Py.get kv "result"); try done; intros w;
      [by intros [= <-]|by intros [= <-]|apply extract_payload_shape]. }
  destruct envelope as [w|]; [intros [= <-]; by apply Henv|].
  destruct (Py.eq_str (Py.get kv "id") req_id); [|done].
  destruct (Py.or (Py.get kv "result") (JObj kv)); try done;
    [by intros [= <-]|by intros [= <-]|apply extract_keys_shape].
Qed.

(** A wait returns a string or a list, never a dict or a number: the
    branches of the callers that test the result of a wait for a dict
    are never taken. *)
Theorem waits_return_text_or_list env st st' v :
  (forall expect_method expect_params keys hint timeout,
      _sse_wait_for env expect_method expect_params keys hint timeout st = (st', Some v) ->
      Py.is_str v || Py.is_list v = true)
  /\ (forall req_id keys hint timeout,
         _sse_wait_for_id env req_id keys hint timeout st = (st', Some v) ->
         Py.is_str v || Py.is_list v = true).
Proof.
  split.
  - intros expect_method expect_params keys hint timeout Hwait.
    rewrite sse_wait_for_unfold in Hwait.
    apply wait_rounds_some in Hwait as (_ & _ & _ & ts & obj & _ & _ & Hm & _).
    by eapply wait_for_event_shape.
  - intros req_id keys hint timeout Hwait.
    rewrite sse_wait_for_id_unfold in Hwait.
    apply wait_rounds_some in Hwait as (_ & _ & _ & ts & obj & _ & _ & Hm & _).
    by eapply wait_for_id_event_shape.
Qed.

(** ** Order and deadlines of the waits *)




(** A wait whose deadline has passed at the first test of its loop (a
    timeout of zero or less, with a clock that does not run backwards)
    returns [None] without looking at the buffer, even when a matching
    event is buffered; so does a wait that makes no pass. *)
Theorem wait_past_deadline env st :
  (forall expect_method expect_params keys hint timeout,
      let ws := env_wait env (waits_begun st) in
      (forall r rs, ws_rounds ws = r :: rs -> ws_start ws + timeout * second <= r_enter r) ->
      _sse_wait_for env expect_method expect_params keys hint timeout st
      = (with_waits (S (waits_begun st)) (_ensure_sse_background st).1, None))
  /\ (forall req_id keys hint timeout,
         let ws := env_wait env (waits_begun st) in
         (forall r rs, ws_rounds ws = r :: rs -> ws_start ws + timeout * second <= r_enter r) ->
         _sse_wait_for_id env req_id keys hint timeout st
         = (with_waits (S (waits_begun st)) (_ensure_sse_background st).1, None)).
Proof.
  assert (forall m end_ rs s,
             (forall r rs', rs = r :: rs' -> end_ <= r_enter r) ->
             wait_rounds m end_ 0 rs s = (s, None)) as Hgen.
  { intros m end_ [|r rs] s Hlate; [done|]. simpl.
    specialize (Hlate r rs eq_refl). by destruct (Z.ltb_spec (r_enter r) end_); [lia|]. }
  split.
  - intros expect_method expect_params keys hint timeout ws Hlate.
    rewrite sse_wait_for_unfold. cbv zeta. by apply Hgen.
  - intros req_id keys hint timeout ws Hlate.
    rewrite sse_wait_for_id_unfold. cbv zeta. by apply Hgen.
Qed.

(** ** The reader's start *)

(** [_ensure_sse_background] is idempotent: a second call changes
    nothing. After it, with a base URL configured, the reader thread is
    alive; without one, or with a reader already alive, the client is
    left as it was. *)
Theorem ensure_sse_background_idempotent st :
  let st1 := (_ensure_sse_background st).1 in
  _ensure_sse_background st1 = (st1, tt)
  /\ (Py.truthy_opt (base_url st) = true ->
      from_option is_alive false (_sse_thread st1) = true)
  /\ (Py.truthy_opt (base_url st) = false
      \/ from_option is_alive false (_sse_thread st) = true -> st1 = st).
Proof.
  unfold _ensure_sse_background.
  destruct (Py.truthy_opt (base_url st)) eqn:Hbase; simpl.
  - destruct (from_option is_alive false (_sse_thread st)) eqn:Halive; simpl.
    + rewrite Hbase, Halive. simpl. repeat split; done.
    + rewrite Hbase. simpl. repeat split; try done. by intros [|].
  - rewrite Hbase. simpl. repeat split; done.
Qed.

(** ** The roster *)

Lemma insert_all_nonempty bs d : bs <> [] -> insert_all bs d <> ∅.
Proof.
  intros Hne Hempty. destruct bs as [|b bs]; [done|].
  destruct (insert_all_lookup (b :: bs) d b) as (b' & Hlook & _); [by left|].
  by rewrite Hempty, lookup_empty in Hlook.
Qed.

(** [list_binaries] never returns an empty roster and never leaves the
    cache empty: callers can always take a first binary. *)
Theorem list_binaries_never_empty env py_repr st st' L :
  list_binaries env py_repr st = (st', L) ->
  L <> [] /\ available_binaries st' <> ∅.
Proof.
  intros [[Hne ->]|[-> ->]]%list_binaries_cache.
  - split; [done|by apply insert_all_nonempty].
  - split; [done|by apply insert_all_nonempty].
Qed.

Lemma list_binaries_never_empty_witness :
  (list_binaries silent_env repr_unused bridge_client).2 <> []
  /\ available_binaries (list_binaries silent_env repr_unused bridge_client).1 <> ∅.
Proof.
  apply (list_binaries_never_empty silent_env repr_unused bridge_client).
  apply surjective_pairing.
Defined.

Lemma list_binaries_caches env py_repr st st' L b :
  list_binaries env py_repr st = (st', L) -> b ∈ L ->
  is_Some (available_binaries st' !! BinaryInfo.binary_id b).
Proof.
  intros Hcall Hb. apply list_binaries_cache in Hcall as [[Hne Hc]|[-> Hc]]; rewrite Hc.
  - destruct (insert_all_lookup L ∅ b Hb) as (b' & -> & _). by eexists.
  - destruct (insert_all_lookup known_binaries (available_binaries st) b Hb)
      as (b' & -> & _). by eexists.
Qed.

(** [_resolve_binary_id] returns the identifier it was given or the id
    of a backend that is in the roster cache when it returns: an id that
    differs from the caller's is never made up. *)
Theorem resolve_returns_known_id env py_repr binary_id st st' r :
  _resolve_binary_id env py_repr binary_id st = (st', r) ->
  r = binary_id \/ is_Some (available_binaries st' !! r).
Proof.
  unfold _resolve_binary_id, bind, get_base_url, is_cached.
  destruct (negb _); [by intros [= _ <-]; left|].
  cbn beta. destruct (bool_decide _); [by intros [= _ <-]; left|].
  destruct (list_binaries env py_repr st) as [st1 servers] eqn:Hroster.
  destruct (nonempty servers); [|by intros [= _ <-]; left].
  destruct (find _ servers) as [b|] eqn:Hfind.
  - intros [= <- <-]. right. apply find_some in Hfind as [Hin _].
    apply (list_binaries_caches _ _ _ _ _ _ Hroster). by apply list_elem_of_In.
  - assert (from_option BinaryInfo.binary_id binary_id (head servers) = binary_id
            \/ is_Some (available_binaries st1
                        !! from_option BinaryInfo.binary_id binary_id (head servers)))
      as Hhead.
    { destruct servers as [|b servers]; [by left|]. right.
      apply (list_binaries_caches _ _ _ _ _ _ Hroster). by left. }
    destruct (_ && _); [by intros [= <- <-]|].
    destruct (bool_decide _); [by intros [= <- <-]|]. intros [= _ <-]. by left.
Qed.

Lemma resolve_returns_known_id_witness :
  "srv1" = "foo"
  \/ is_Some (available_binaries
                (_resolve_binary_id (roster_env (fun _ => JArr [backend "srv1" "libimp.so"]))
                                    repr_unused "foo" bridge_client).1 !! "srv1").
Proof.
  apply (resolve_returns_known_id
           (roster_env (fun _ => JArr [backend "srv1" "libimp.so"])) repr_unused "foo"
           bridge_client).
  vm_compute. reflexivity.
Defined.

Lemma wait_past_deadline_witness :
  _sse_wait_for_id silent_env "req-1" decompile_keys None 0
                   (with_events [reply_event "int f(){}"] listening_client)
  = (with_waits 1 (with_events [reply_event "int f(){}"] listening_client), None).
Proof.
  destruct (wait_past_deadline silent_env
              (with_events [reply_event "int f(){}"] listening_client)) as [_ H].
  rewrite (H "req-1" decompile_keys None 0); [reflexivity|].
  intros r rs [= <- <-]. vm_compute. discriminate.
Defined.

(** ** The shape of a direct base URL *)

Lemma rstrip_by_idem p s : PyStr.rstrip_by p (PyStr.rstrip_by p s) = PyStr.rstrip_by p s.
Proof.
  induction s as [|c r IH]; simpl; [done|].
  destruct (p c && PyStr.is_empty (PyStr.rstrip_by p r)) eqn:Hdrop; [done|].
  simpl. by rewrite IH, Hdrop.
Qed.

Lemma rstrip_by_app_tail p s1 c t :
  p c = false -> PyStr.forallb_str (fun x => negb (p x)) t = true ->
  PyStr.rstrip_by p (s1 +:+ String c t) = s1 +:+ String c t.
Proof.
  intros Hc Ht. induction s1 as [|x s1 IH]; simpl.
  - rewrite PyStrFacts.rstrip_by_id by done. by rewrite Hc.
  - rewrite IH. destruct s1; simpl; by rewrite andb_false_r.
Qed.

Lemma prefix_app p s : String.prefix p s = true -> exists r, s = p +:+ r.
Proof.
  revert s. induction p as [|c p IH]; intros s; [by exists s|].
  destruct s as [|c' s]; simpl; [done|]. destruct (ascii_dec c c') as [<-|]; [|done].
  intros [r ->]%IH. by exists r.
Qed.

Lemma prefix_app_l q s t : String.prefix q s = true -> String.prefix q (s +:+ t) = true.
Proof.
  revert s. induction q as [|c q IH]; intros s; [intros _; apply prefix_nil|].
  destruct s as [|c' s]; simpl; [done|]. destruct (ascii_dec c c'); [apply IH|done].
Qed.

Lemma digit_plain c :
  PyStr.is_dec_digit c = true ->
  negb (PyStr.is_space c) && negb (Ascii.eqb "/" c) = true.
Proof.
  destruct c as [[|] [|] [|] [|] [|] [|] [|] [|]]; vm_compute; intros H;
    try discriminate H; reflexivity.
Qed.

Lemma string_of_uint_plain d :
  PyStr.forallb_str (fun c => negb (PyStr.is_space c) && negb (Ascii.eqb "/" c))
                    (NilEmpty.string_of_uint d) = true.
Proof. induction d; simpl; done. Qed.

Lemma str_of_int_plain p :
  PyStr.forallb_str (fun c => negb (PyStr.is_space c) && negb (Ascii.eqb "/" c))
                    (PyStr.str_of_int p) = true.
Proof.
  unfold PyStr.str_of_int. destruct (p <? 0); simpl; apply string_of_uint_plain.
Qed.

(** The URL made for a port. *)
Lemma localhost_url_shape p :
  let url := "http://localhost:" +:+ PyStr.str_of_int p in
  PyStr.strip url = url /\ PyStr.rstrip_slash url = url.
Proof.
  intros url. pose proof (str_of_int_plain p) as Hplain. split.
  - unfold PyStr.strip.
    assert (PyStr.forallb_str (fun c => negb (PyStr.is_space c)) url = true) as Hns.
    { unfold url. simpl. revert Hplain. apply PyStrFacts.forallb_str_impl.
      by intros c [? _]%andb_true_iff. }
    by rewrite PyStrFacts.lstrip_by_id, PyStrFacts.rstrip_by_id.
  - change url with ("http://localhost" +:+ String ":" (PyStr.str_of_int p)).
    apply rstrip_by_app_tail; [done|].
    revert Hplain. apply PyStrFacts.forallb_str_impl. by intros c [_ ?]%andb_true_iff.
Qed.

(** A direct base URL is ready for a path to be appended: it starts
    with [http], is not empty and has no trailing slash. Derived from a
    port, it is [http://localhost:<n>] and resolves to itself. *)
Theorem direct_base_shape binary_id direct_base :
  _direct_base_from_binary_id binary_id = Some direct_base ->
  PyStr.startswith direct_base "http" = true
  /\ PyStr.rstrip_slash direct_base = direct_base
  /\ direct_base <> ""
  /\ (PyStr.startswith (PyStr.strip binary_id) "http://"
      || PyStr.startswith (PyStr.strip binary_id) "https://" = false ->
      PyStr.startswith direct_base "http://localhost:" = true
      /\ _direct_base_from_binary_id direct_base = Some direct_base).
Proof.
  unfold _direct_base_from_binary_id at 1.
  destruct (PyStr.startswith (PyStr.strip binary_id) "http://") eqn:Hh;
    [|destruct (PyStr.startswith (PyStr.strip binary_id) "https://") eqn:Hhs]; simpl orb;
    cbv iota.
  - apply prefix_app in Hh as [r ->]. intros [= <-]. unfold PyStr.rstrip_slash.
    rewrite rstrip_by_idem. repeat split; try done.
  - apply prefix_app in Hhs as [r ->]. intros [= <-]. unfold PyStr.rstrip_slash.
    rewrite rstrip_by_idem. repeat split; try done.
  - destruct (if PyStr.startswith _ "port_" then _ else _) as [p|]; [|done].
    destruct (p =? 0); [done|]. intros [= <-].
    destruct (localhost_url_shape p) as [Hstrip Hrstrip].
    assert (forall q, String.prefix q "http://localhost:" = true ->
                      PyStr.startswith ("http://localhost:" +:+ PyStr.str_of_int p) q = true)
      as Hstarts by (intros q Hq; by apply prefix_app_l).
    split; [by apply Hstarts|]. split; [done|]. split; [done|]. intros _.
    split; [by apply Hstarts|].
    unfold _direct_base_from_binary_id. rewrite Hstrip, (Hstarts "http://") by done.
    simpl. by rewrite Hrstrip.
Qed.

Lemma direct_base_shape_witness :
  PyStr.startswith "http://localhost:9009" "http" = true
  /\ PyStr.rstrip_slash "http://localhost:9009" = "http://localhost:9009"
  /\ "http://localhost:9009" <> ""
  /\ (PyStr.startswith (PyStr.strip "port_9009") "http://"
      || PyStr.startswith (PyStr.strip "port_9009") "https://" = false ->
      PyStr.startswith "http://localhost:9009" "http://localhost:" = true
      /\ _direct_base_from_binary_id "http://localhost:9009" = Some "http://localhost:9009").
Proof. apply (direct_base_shape "port_9009"). reflexivity. Defined.

(** ** The reader *)

#[local] Arguments String.append : simpl nomatch.

Lemma append_nil_r s : s +:+ "" = s.
Proof. induction s as [|c s IH]; simpl; [done|by rewrite IH]. Qed.

Lemma append_assoc s1 s2 s3 : (s1 +:+ s2) +:+ s3 = s1 +:+ (s2 +:+ s3).
Proof. induction s1 as [|c s1 IH]; simpl; [done|by rewrite IH]. Qed.

Lemma is_empty_app s t : PyStr.is_empty (s +:+ t) = PyStr.is_empty s && PyStr.is_empty t.
Proof. by destruct s. Qed.

Lemma forallb_str_app p s t :
  PyStr.forallb_str p (s +:+ t) = PyStr.forallb_str p s && PyStr.forallb_str p t.
Proof. induction s as [|c s IH]; simpl; [done|]. by rewrite IH, andb_assoc. Qed.

Lemma rstrip_by_empty p s : PyStr.is_empty (PyStr.rstrip_by p s) = PyStr.forallb_str p s.
Proof.
  induction s as [|c r IH]; simpl; [done|].
  rewrite <- IH. by destruct (p c), (PyStr.is_empty (PyStr.rstrip_by p r)).
Qed.

Lemma forallb_lstrip_by p s :
  PyStr.forallb_str p (PyStr.lstrip_by p s) = PyStr.forallb_str p s.
Proof.
  induction s as [|c r IH]; simpl; [done|].
  destruct (p c) eqn:Hc; simpl; [done|by rewrite Hc].
Qed.

(** [s.strip() == ""] exactly when [s] holds only white space. *)
Lemma strip_empty s :
  PyStr.is_empty (PyStr.strip s) = PyStr.forallb_str PyStr.is_space s.
Proof. unfold PyStr.strip. by rewrite rstrip_by_empty, forallb_lstrip_by. Qed.

Lemma splitlines_from_line cur l rest :
  PyStr.forallb_str (fun c => negb (PyText.is_linebreak c)) l = true ->
  PyText.splitlines_from cur (l +:+ PyText.LF +:+ rest)
  = (cur +:+ l) :: PyText.splitlines_from "" rest.
Proof.
  revert cur. induction l as [|c l IH]; intros cur Hl.
  - rewrite append_nil_r. simpl. by destruct rest.
  - simpl in Hl. apply andb_true_iff in Hl as [Hc Hl]. apply negb_true_iff in Hc.
    simpl. rewrite Hc, IH by done. by rewrite append_assoc.
Qed.

Lemma splitlines_block lines :
  Forall (fun l => PyStr.forallb_str (fun c => negb (PyText.is_linebreak c)) l = true) lines ->
  PyText.splitlines (block_text lines) = lines.
Proof.
  unfold PyText.splitlines. induction 1 as [|l lines Hl _ IH]; [done|].
  change (block_text (l :: lines)) with (l +:+ PyText.LF +:+ block_text lines).
  rewrite splitlines_from_line by done. by rewrite IH.
Qed.

Lemma reader_feed_lines json_loads (tlines : list (time * string)) buf c :
  Forall (fun tl : time * string => block_line tl.2) tlines ->
  foldl (reader_step json_loads) (buf, c)
        (map (fun tl : time * string => Chunk tl.1 (tl.2 +:+ PyText.LF)) tlines)
  = (buf +:+ block_text (map snd tlines), c).
Proof.
  intros Hlines. revert buf. induction Hlines as [|[t l] tlines [_ Hl] _ IH]; intros buf; simpl.
  - by rewrite append_nil_r.
  - rewrite is_empty_app, strip_empty, forallb_str_app. simpl in Hl. rewrite Hl.
    simpl. rewrite andb_false_r. simpl. rewrite IH. by rewrite !append_assoc.
Qed.

(** Parsing of one event. A block of lines, each ended by a line feed,
    followed by an empty line: the reader takes the lines that start with
    [data:], strips what follows the prefix, joins the pieces with line
    feeds and appends the parsed JSON to the buffer; a block without
    [data:] lines, or whose data does not parse, is dropped without a
    trace. Either way the pending block is empty afterwards. *)
Theorem sse_reader_block json_loads (tlines : list (time * string)) (t_end : time) c :
  Py.truthy_opt (base_url c) = true -> _sse_running c = true ->
  tlines <> [] ->
  Forall (fun tl : time * string => block_line tl.2) tlines ->
  let data := map (fun l => PyStr.strip (PyText.drop_str 5 l))
                  (List.filter (fun l => PyStr.startswith l "data:") (map snd tlines)) in
  _sse_background json_loads
    (map (fun tl : time * string => Chunk tl.1 (tl.2 +:+ PyText.LF)) tlines
     ++ [Chunk t_end PyText.LF]) c
  = ("", match data with
         | [] => c
         | _ => match json_loads (PyText.join PyText.LF data) with
                | Some obj => _enqueue_event t_end obj c
                | None => c
                end
         end).
Proof.
  intros Hbase Hrun Hne Hlines data. unfold _sse_background.
  rewrite Hbase, Hrun. simpl orb. cbv iota.
  rewrite foldl_app, reader_feed_lines by done. simpl foldl.
  unfold reader_step.
  change (PyStr.is_empty PyText.LF) with false.
  change (PyStr.is_empty (PyStr.strip PyText.LF)) with true. cbv iota.
  assert (PyStr.is_empty (block_text (map snd tlines)) = false) as ->.
  { destruct tlines as [|[t l] tlines]; [done|]. simpl.
    rewrite is_empty_app. simpl. by rewrite andb_false_r. }
  f_equal. unfold block_event, data_lines.
  rewrite splitlines_block; [by fold data; destruct data|].
  apply Forall_fmap. eapply Forall_impl; [exact Hlines|]. by intros tl [? _].
Qed.

Lemma sse_reader_block_witness :
  let loads := fun s => if String.eqb s "7" then Some (JInt 7) else None in
  _sse_background loads
    [Chunk 1 ("event: tick" +:+ PyText.LF); Chunk 2 ("data:  7 " +:+ PyText.LF);
     Chunk 3 PyText.LF] listening_client
  = ("", _enqueue_event 3 (JInt 7) listening_client).
Proof.
  cbv zeta.
  apply (sse_reader_block (fun s => if String.eqb s "7" then Some (JInt 7) else None)
           [(1, "event: tick"); (2, "data:  7 ")] 3 listening_client);
    [reflexivity | reflexivity | discriminate |].
  repeat constructor.
Defined.

Lemma with_events_same c : with_events (_sse_events c) c = c.
Proof. by destruct c. Qed.

Lemma deque_appends_bounded {A} (d : list A) (xs : list A) :
  (length d <= SSE_MAXLEN)%nat ->
  (length (foldl (deque_append SSE_MAXLEN) d xs) <= SSE_MAXLEN)%nat.
Proof.
  revert d. induction xs as [|x xs IH]; intros d Hd; simpl; [done|].
  by apply IH, deque_append_length.
Qed.

Lemma reader_steps json_loads reads buf c :
  exists evs : list event,
    (foldl (reader_step json_loads) (buf, c) reads).2
    = with_events (foldl (deque_append SSE_MAXLEN) (_sse_events c) evs) c
    /\ (length evs <= length (List.filter blank_read reads))%nat.
Proof.
  revert buf c. induction reads as [|r reads IH]; intros buf c.
  { exists []. simpl. by rewrite with_events_same. }
  assert (forall buf', exists evs : list event,
             (foldl (reader_step json_loads) (buf', c) reads).2
             = with_events (foldl (deque_append SSE_MAXLEN) (_sse_events c) evs) c
             /\ (length evs <= length (List.filter blank_read (r :: reads)))%nat) as Hsame.
  { intros buf'. destruct (IH buf' c) as (evs & Hev & Hlen). exists evs. split; [done|].
    simpl. destruct (blank_read r); simpl; lia. }
  destruct r as [now chunk| |]; simpl foldl; [|apply Hsame..].
  destruct (PyStr.is_empty chunk) eqn:Hchunk; [apply Hsame|].
  destruct (PyStr.is_empty (PyStr.strip chunk)) eqn:Hblank; [|apply Hsame].
  destruct (PyStr.is_empty buf); [apply Hsame|].
  destruct (block_event json_loads buf) as [obj|]; [|apply Hsame].
  destruct (IH "" (_enqueue_event now obj c)) as (evs & Hev & Hlen).
  exists ((now, obj) :: evs). split; [by rewrite Hev|].
  simpl. rewrite Hchunk, Hblank. simpl. lia.
Qed.

(** The reader only ever appends to the event buffer. Whatever the stream
    delivers, [_sse_background] changes no field of the client but
    [_sse_events]; the buffer it leaves is the old one with some events
    appended through the bounded deque, at most one for each blank line
    read; the bound of the buffer is kept; and without a base URL, or once
    [_sse_running] is cleared, the client is left as it was. *)
Theorem sse_background_only_appends json_loads reads c :
  exists evs : list event,
    (_sse_background json_loads reads c).2
    = with_events (foldl (deque_append SSE_MAXLEN) (_sse_events c) evs) c
    /\ (length evs <= length (List.filter blank_read reads))%nat
    /\ (buffer_bounded c -> buffer_bounded (_sse_background json_loads reads c).2)
    /\ (Py.truthy_opt (base_url c) && _sse_running c = false ->
        _sse_background json_loads reads c = ("", c)).
Proof.
  unfold _sse_background.
  destruct (Py.truthy_opt (base_url c)), (_sse_running c); simpl negb; simpl orb; cbv iota.
  2-4: exists []; simpl; rewrite with_events_same; repeat split; (done || lia).
  destruct (reader_steps json_loads reads "" c) as (evs & Hev & Hlen).
  exists evs. rewrite Hev. repeat split; try done.
  unfold buffer_bounded. simpl. apply deque_appends_bounded.
Qed.

(** ** [_sse_iter] *)






(** * Properties of the callers *)

(** ** [compare_function_versions] *)



(** ** [_list_binaries] of the MCP server *)




(** ** [BinaryContextManager] *)

Lemma note_functions bid (l : list string) fs bs :
  (foldl (note_function bid) (fs, bs) l).2 = list_to_set l ∪ bs
  /\ forall f ctx, (foldl (note_function bid) (fs, bs) l).1 !! f = Some ctx ->
       (FunctionContext.exists_in_binary ctx = true /\ f ∈ l) \/ fs !! f = Some ctx.
Proof.
  revert fs bs. induction l as [|g l IH]; intros fs bs; simpl.
  - split; [by rewrite (left_id_L ∅ (∪))|]. intros f ctx Hf. by right.
  - change (note_function bid (fs, bs) g)
      with (<[g := FunctionContext.mk g true (Some bid) None [] [] false ""]> fs, {[g]} ∪ bs).
    destruct (IH (<[g := FunctionContext.mk g true (Some bid) None [] [] false ""]> fs)
                 ({[g]} ∪ bs)) as [Hbs Hfs].
    split; [rewrite Hbs; by rewrite (assoc_L (∪)), (comm_L (∪) (list_to_set l))|].
    intros f ctx Hf. destruct (Hfs f ctx Hf) as [[Hex Hin]|Hlook].
    + left. split; [done|by right].
    + destruct (decide (g = f)) as [->|Hne].
      * rewrite lookup_insert_eq in Hlook. injection Hlook as <-. left. split; [done|by left].
      * rewrite lookup_insert_ne in Hlook by done. by right.
Qed.

Lemma new_manager_loaded environ bid : loaded ∅ (new_manager environ bid).
Proof. split; [done|]. intros f ctx Hf. simpl in Hf. by rewrite lookup_empty in Hf. Qed.

Lemma load_binary_functions_loaded env py_repr names m :
  loaded names m ->
  let names' :=
    match (list_functions env py_repr (BinaryContextManager.binary_id m) None
                          (BinaryContextManager.mcp m)).2 with
    | Raised => names
    | Done l => list_to_set l ∪ names
    end in
  loaded names' (load_binary_functions env py_repr m).1
  /\ (load_binary_functions env py_repr m).2
     = match (list_functions env py_repr (BinaryContextManager.binary_id m) None
                             (BinaryContextManager.mcp m)).2 with
       | Raised => 0
       | Done _ => Z.of_nat (size names')
       end.
Proof.
  intros [Hbs Hfs]. unfold load_binary_functions.
  destruct (list_functions _ _ _ _ _) as [c [|l]]; simpl; [done|].
  pose proof (note_functions (BinaryContextManager.binary_id m) l
                (BinaryContextManager.functions m)
                (BinaryContextManager.binary_functions m)) as [Hbs' Hfs'].
  destruct (foldl _ _ l) as [fs bs]. simpl in *. subst bs. rewrite Hbs.
  split; [|done]. split; [done|]. simpl.
  intros f ctx Hf. destruct (Hfs' f ctx Hf) as [[Hex Hin]|Hlook].
  - split; [done|]. apply elem_of_union. left. by apply elem_of_list_to_set.
  - destruct (Hfs f ctx Hlook) as [Hex Hin]. split; [done|]. apply elem_of_union. by right.
Qed.

Lemma should_skip_function_loaded names f m :
  loaded names m ->
  loaded names (should_skip_function f m).1
  /\ (should_skip_function f m).2 = bool_decide (names <> ∅ /\ f ∉ names).
Proof.
  intros [Hbs Hfs]. unfold should_skip_function. rewrite Hbs.
  case_bool_decide as Hempty; simpl.
  { split; [done|]. rewrite bool_decide_false; [done|]. by intros [? _]. }
  destruct (BinaryContextManager.functions m !! f) as [ctx|] eqn:Hlook; simpl.
  - destruct (Hfs f ctx Hlook) as [-> Hin]. split; [done|].
    rewrite bool_decide_false; [done|]. by intros [_ ?].
  - case_bool_decide as Hin; simpl.
    + split; [|rewrite bool_decide_false; [done|]; by intros [_ ?]].
      split; [done|]. simpl. intros g ctx Hg.
      destruct (decide (f = g)) as [->|Hne].
      * rewrite lookup_insert_eq in Hg. by injection Hg as <-.
      * rewrite lookup_insert_ne in Hg by done. by apply Hfs.
    + split; [done|]. by rewrite bool_decide_true.
Qed.

(** Loading and skipping. After [load_binary_functions] on a new
    manager, and after any number of [should_skip_function] calls, a
    function is skipped exactly when the binary's list of names was loaded,
    is not empty and does not hold the function: when [list_functions]
    raised or returned no name, nothing is ever skipped. The count
    [load_binary_functions] returns is the number of distinct names
    loaded, 0 when [list_functions] raised. *)
Theorem skip_after_load env py_repr environ bid (asked : list string) function_name :
  let start := new_manager environ bid in
  let listed := (list_functions env py_repr bid None (BinaryContextManager.mcp start)).2 in
  let names : gset string :=
    match listed with Raised => ∅ | Done l => list_to_set l end in
  let m := foldl (fun m g => (should_skip_function g m).1)
                 (load_binary_functions env py_repr start).1 asked in
  (should_skip_function function_name m).2
  = bool_decide (names <> ∅ /\ function_name ∉ names)
  /\ (load_binary_functions env py_repr start).2 = Z.of_nat (size names)
  /\ BinaryContextManager.binary_functions m = names.
Proof.
  intros start listed names m.
  destruct (load_binary_functions_loaded env py_repr ∅ start (new_manager_loaded environ bid))
    as [Hloaded Hcount].
  change (BinaryContextManager.binary_id start) with bid in *. fold listed in Hloaded, Hcount.
  assert (match listed with Raised => ∅ | Done l => list_to_set l ∪ ∅ end = names) as Hnames.
  { unfold names. destruct listed; [done|]. by rewrite (right_id_L ∅ (∪)). }
  rewrite Hnames in Hloaded, Hcount.
  assert (forall m0, loaded names m0 ->
            loaded names (foldl (fun m g => (should_skip_function g m).1) m0 asked)) as Hm.
  { induction asked as [|g asked IH]; intros m0 Hm0; simpl; [done|].
    apply IH. by apply should_skip_function_loaded. }
  specialize (Hm _ Hloaded). fold m in Hm.
  split; [by apply should_skip_function_loaded|]. split; [|apply Hm].
  rewrite Hcount. unfold names. by destruct listed.
Qed.

(** ** [list_functions] on a synchronous list *)

Lemma sync_names_raised py_repr items :
  sync_names py_repr items = Raised <-> Exists (fun x => Py.is_dict x = false) items.
Proof.
  induction items as [|x items IH]; simpl.
  - split; [done|]. by intros ?%Exists_nil.
  - rewrite Exists_cons. destruct x; simpl; try (split; [by left|done]).
    destruct (sync_names py_repr items).
    + split; [intros _; right; by apply IH|done].
    + split; [done|]. intros [?|?%IH]; done.
Qed.

Lemma collect_names_strings py_repr (names : list string) :
  collect_names py_repr (map JStr names) = names.
Proof. induction names as [|n names IH]; simpl; [done|by rewrite IH]. Qed.

(** A list in the synchronous JSON-RPC reply is read with [x.get], the
    same list on the other transports is not. When no direct base URL is
    derived from the identifier, a base URL is configured, the identifier
    is cached and the bridge answers the first POST to [/message] with a
    JSON list, [list_functions] sends that single request and its outcome
    is that of the comprehension over the list: it raises exactly when the
    list holds an element that is not a dict, a plain list of names
    included. The loops of the SSE, generic and REST paths accept such a
    list of names as it is. *)
Theorem list_functions_sync_list env py_repr st binary_id search raw items :
  Py.truthy_opt (_direct_base_from_binary_id binary_id) = false ->
  Py.truthy_opt (base_url st) = true ->
  is_Some (available_binaries st !! binary_id) ->
  (forall body,
     env_http env (length (requests st))
       (POST (PyStr.rstrip_slash (default "" (base_url st)) +:+ "/message") body 20)
     = Reply 200 raw (Some (JArr items))) ->
  (list_functions env py_repr binary_id search st).2 = sync_names py_repr items
  /\ (sync_names py_repr items = Raised
      <-> Exists (fun x => Py.is_dict x = false) items)
  /\ length (requests (list_functions env py_repr binary_id search st).1)
     = S (length (requests st))
  /\ (forall names, names <> [] ->
        names_if_list py_repr (JArr (map JStr names)) = Some (Done names)).
Proof.
  intros Hdirect Hbase Hcached Hreply.
  split; [|split; [apply sync_names_raised|split]].
  - unfold list_functions, bind, get_base_url, or_else, bind, when.
    rewrite Hdirect, Hbase. cbn beta iota delta [ret].
    unfold functions_bridge, bind, or_else, bind. rewrite resolve_cached by done.
    cbn beta iota. unfold function_methods. cbn [first_of].
    unfold or_else at 1, bind. unfold functions_attempt at 1.
    unfold bind, or_else, bind, uuid4, _bridge_call_jsonrpc, bind, get_base_url, http.
    cbn beta iota. cbn [base_url with_uuids requests with_requests fst snd].
    rewrite Hbase. cbn beta iota delta [negb]. rewrite Hreply. by cbn.
  - unfold list_functions, bind, get_base_url, or_else, bind, when.
    rewrite Hdirect, Hbase. cbn beta iota delta [ret].
    unfold functions_bridge, bind, or_else, bind. rewrite resolve_cached by done.
    cbn beta iota. unfold function_methods. cbn [first_of].
    unfold or_else at 1, bind. unfold functions_attempt at 1.
    unfold bind, or_else, bind, uuid4, _bridge_call_jsonrpc, bind, get_base_url, http.
    cbn beta iota. cbn [base_url with_uuids requests with_requests fst snd].
    rewrite Hbase. cbn beta iota delta [negb]. rewrite Hreply. cbn.
    rewrite length_app. simpl. lia.
  - intros names Hne. unfold names_if_list. rewrite collect_names_strings.
    by destruct names.
Qed.

Lemma list_functions_sync_list_witness :
  (list_functions names_env repr_unused "srv1" None cached_client).2 = Raised.
Proof.
  destruct (list_functions_sync_list names_env repr_unused cached_client "srv1" None "[...]"
              [JStr "IMP_System_Init"; JStr "IMP_System_Exit"]) as [H _];
    [reflexivity | reflexivity | | reflexivity | exact H].
  unfold cached_client. simpl. rewrite lookup_singleton_eq. by eexists.
Defined.
